(** * msh/lib/servctrl: stopping the minecraft server

    A shallow embedding of [servctrl.go] (StartMS, StopMS, StopMSRequest,
    killMSifOnlineAfterTimeout) as interaction trees, with a labelled
    small-step semantics for one goroutine, the shared [Stats] they run
    against, and a pool of goroutines and timers scheduled in any order. *)

From Stdlib Require Import ZArith String List Bool Lia Morphisms DecimalString.
From ITree Require Import ITree ITreeFacts.
Import ITreeNotations ListNotations.
Local Open Scope string_scope.
Local Open Scope list_scope.
Local Open Scope itree_scope.
Local Open Scope Z_scope.

Set Implicit Arguments.

(** ** Go values *)

(** A Go [error] is modelled by its [Error()] text; [nil] is [None]. *)
Abbreviation error := string (only parsing).

(** [int32] arithmetic wraps around. *)
Definition wrap32 (z : Z) : Z := (z + 2 ^ 31) mod 2 ^ 32 - 2 ^ 31.

Definition int32 (z : Z) : Prop := - 2 ^ 31 <= z < 2 ^ 31.

(** [time.Duration] is an [int64] count of nanoseconds. *)
Definition wrap64 (z : Z) : Z := (z + 2 ^ 63) mod 2 ^ 64 - 2 ^ 63.
Definition Second : Z := 1000000000.

(** The [%d] verb of [fmt]. *)
Definition fmt_d (z : Z) : string := NilZero.string_of_int (Z.to_int z).

(** The fields of [config.ConfigRuntime] that [servctrl.go] reads, typed
    by what it does with them: two are compared and counted with, three
    are passed on as text. *)
Record Configuration : Type := {
  Server_Folder : string;
  Commands_StartServer : string;
  Commands_StopServer : string;
  Commands_StopServerAllowKill : Z;
  Msh_TimeBeforeStoppingEmptyServer : Z
}.

(** A configuration to run the code on: stop with "stop", allow the kill
    after [allowKill] seconds, stop an empty server after 30 seconds. *)
Definition sampleConfig (allowKill : Z) : Configuration :=
  {| Server_Folder := "/srv/minecraft";
     Commands_StartServer := "java -jar server.jar nogui";
     Commands_StopServer := "stop";
     Commands_StopServerAllowKill := allowKill;
     Msh_TimeBeforeStoppingEmptyServer := 30 |}.

(** What runs as a goroutine: the exported functions, called from the
    goroutines of other packages, and the two bodies this package hands to
    [time.AfterFunc] and to [go]. *)
Inductive Goroutine : Type :=
| G_StartMS
| G_StopMS (playersCheck : bool)
| G_StopMSRequest
| G_func1                        (* the func literal inside StopMSRequest *)
| G_killMSifOnlineAfterTimeout.

(** An argument of [logger.Logln]. *)
Inductive LogArg : Type :=
| AInt (n : Z)
| AStr (s : string)
| ABool (b : bool)
| AErr (e : error).

(** ** Effects

    Everything [servctrl.go] does to the rest of the program: the shared
    [Stats], the clock, the server terminal, the logger, the scheduler.
    [cmdStart], [Execute], [countPlayerSafe], [ServTerm] and [logger] are
    declared elsewhere; here they are effects, and a run may get any
    answer from them. *)
Variant msE : Type -> Type :=
| ReadStatus : msE string
    (* Stats.Status *)
| Sleep (d : Z) : msE unit
    (* time.Sleep(d) *)
| AddInt32 (delta : Z) : msE Z
    (* atomic.AddInt32(&Stats.StopMSRequests, delta) *)
| LoadInt32 : msE Z
    (* atomic.LoadInt32(&Stats.StopMSRequests) *)
| ReadStopMSRequests : msE Z
    (* Stats.StopMSRequests, read without the atomic package *)
| countPlayerSafe : msE (Z * bool)
    (* countPlayerSafe() *)
| Logln (args : list LogArg) : msE unit
    (* logger.Logln(args...) *)
| Execute (command origin : string) : msE (string * option error)
    (* Execute(command, origin) *)
| cmdStart (dir command : string) : msE (option error)
    (* cmdStart(dir, command) *)
| Kill : msE (option error)
    (* ServTerm.cmd.Process.Kill() *)
| Go (g : Goroutine) : msE unit
    (* go g() *)
| AfterFunc (d : Z) (g : Goroutine) : msE unit.
    (* time.AfterFunc(d, g) *)

(** What one step of a goroutine looks like from outside: the effect
    together with the answer it got.  [EvTau] is the silent step taken
    when a loop goes round. *)
Inductive Event : Type :=
| EvTau
| EvStatus (s : string)
| EvSleep (d : Z)
| EvAddInt32 (delta new : Z)
| EvLoadInt32 (v : Z)
| EvStopMSRequests (v : Z)
| EvCountPlayerSafe (playerCount : Z) (isFromServer : bool)
| EvLogln (args : list LogArg)
| EvExecute (command origin out : string) (err : option error)
| EvCmdStart (dir command : string) (err : option error)
| EvKill (err : option error)
| EvGo (g : Goroutine)
| EvAfterFunc (d : Z) (g : Goroutine).

Definition Goroutine_eq_dec (a b : Goroutine) : {a = b} + {a <> b}.
Proof. decide equality. apply bool_dec. Defined.

Definition LogArg_eq_dec (a b : LogArg) : {a = b} + {a <> b}.
Proof.
  decide equality;
    first [apply Z.eq_dec | apply string_dec | apply bool_dec].
Defined.

Definition option_error_eq_dec (a b : option error) : {a = b} + {a <> b}.
Proof. decide equality; apply string_dec. Defined.

Definition Event_eq_dec (a b : Event) : {a = b} + {a <> b}.
Proof.
  decide equality;
    first [apply Z.eq_dec | apply string_dec | apply bool_dec
          | apply Goroutine_eq_dec | apply option_error_eq_dec
          | apply (list_eq_dec LogArg_eq_dec)].
Defined.

(** The event an effect shows when it is answered by [x]. *)
Definition label {X : Type} (e : msE X) : X -> Event :=
  match e in msE X return X -> Event with
  | ReadStatus => fun s => EvStatus s
  | Sleep d => fun _ => EvSleep d
  | AddInt32 delta => fun new => EvAddInt32 delta new
  | LoadInt32 => fun v => EvLoadInt32 v
  | ReadStopMSRequests => fun v => EvStopMSRequests v
  | countPlayerSafe => fun r => EvCountPlayerSafe (fst r) (snd r)
  | Logln args => fun _ => EvLogln args
  | Execute command origin => fun r => EvExecute command origin (fst r) (snd r)
  | cmdStart dir command => fun err => EvCmdStart dir command err
  | Kill => fun err => EvKill err
  | Go g => fun _ => EvGo g
  | AfterFunc d g => fun _ => EvAfterFunc d g
  end.

(** The answer an event carries, before checking that it is an event of
    this effect at all. *)
Definition carried {X : Type} (e : msE X) (ev : Event) : option X :=
  match e in msE X return option X with
  | ReadStatus => match ev with EvStatus s => Some s | _ => None end
  | Sleep _ => Some tt
  | AddInt32 _ => match ev with EvAddInt32 _ new => Some new | _ => None end
  | LoadInt32 => match ev with EvLoadInt32 v => Some v | _ => None end
  | ReadStopMSRequests => match ev with EvStopMSRequests v => Some v | _ => None end
  | countPlayerSafe =>
      match ev with EvCountPlayerSafe n b => Some (n, b) | _ => None end
  | Logln _ => Some tt
  | Execute _ _ =>
      match ev with EvExecute _ _ out err => Some (out, err) | _ => None end
  | cmdStart _ _ => match ev with EvCmdStart _ _ err => Some err | _ => None end
  | Kill => match ev with EvKill err => Some err | _ => None end
  | Go _ => Some tt
  | AfterFunc _ _ => Some tt
  end.

(** [answer e ev] is the [x] with [label e x = ev], if there is one. *)
Definition answer {X : Type} (e : msE X) (ev : Event) : option X :=
  match carried e ev with
  | Some x => if Event_eq_dec (label e x) ev then Some x else None
  | None => None
  end.

(** ** One goroutine, step by step *)

(** The goroutine performs [ev] and goes on, or cannot perform it. *)
Definition thread_step {R : Type} (t : itree msE R) (ev : Event)
  : option (itree msE R) :=
  match observe t with
  | RetF _ => None
  | TauF t' => match ev with EvTau => Some t' | _ => None end
  | VisF e k => option_map k (answer e ev)
  end.

(** The value a goroutine has returned, if it has. *)
Definition result {R : Type} (t : itree msE R) : option R :=
  match observe t with
  | RetF r => Some r
  | _ => None
  end.

(** Where the goroutine is after the events of [tr]. *)
Fixpoint thread_run {R : Type} (t : itree msE R) (tr : list Event)
  : option (itree msE R) :=
  match tr with
  | [] => Some t
  | ev :: tr' =>
      match thread_step t ev with
      | Some t' => thread_run t' tr'
      | None => None
      end
  end.

(** [outcome t tr] is [None] when [t] cannot perform [tr], [Some None]
    when it can and is still running afterwards, and [Some (Some r)] when
    it has then returned [r]. *)
Definition outcome {R : Type} (t : itree msE R) (tr : list Event)
  : option (option R) :=
  option_map (@result R) (thread_run t tr).

(** ** config: the whitelist

    [InWhitelist] of package config.  Of the configuration it reads only
    [c.Msh.Whitelist]; [utility.SliceContain] and the codes and levels of
    [errco] are declared outside these sources, so the first is taken as
    given and the others are names. *)

Inductive ErrorCode : Type := ERROR_PLAYER_NOT_IN_WHITELIST.

Inductive LogLvl : Type := LVL_B | LVL_D.

(** What [errco.NewErr] is called with. *)
Inductive Error : Type :=
| NewErr (code : ErrorCode) (lvl : LogLvl) (ori : string) (str : string).

(** A call of [errco.Logln]: level, format, arguments. *)
Definition LogLine : Type := LogLvl * string * list string.

(** [for _, p := range params { if utility.SliceContain(p, ...) { return } }]:
    whether the loop returns from inside. *)
Fixpoint rangeParams (SliceContain : string -> list string -> bool)
         (Whitelist params : list string) : bool :=
  match params with
  | [] => false
  | p :: params' =>
      if SliceContain p Whitelist then true
      else rangeParams SliceContain Whitelist params'
  end.

(** InWhitelist checks if the playerName or clientAddress is in config
    whitelist; the lines it logs come with its result. *)
Definition InWhitelist (SliceContain : string -> list string -> bool)
           (Whitelist params : list string) : list LogLine * option Error :=
  if (length Whitelist =? 0)%nat
  then ([(LVL_D, "whitelist not enabled", [])], None)
  else
    let checking := (LVL_D, "checking whitelist for: %s", [String.concat ", " params]) in
    if rangeParams SliceContain Whitelist params
    then ([checking; (LVL_D, "playerName or clientAddress is whitelisted!", [])], None)
    else ([checking; (LVL_D, "playerName or clientAddress is not whitelisted!", [])],
          Some (NewErr ERROR_PLAYER_NOT_IN_WHITELIST LVL_B "InWhitelist"
                       "playerName or clientAddress is not whitelisted")).

(** ** servctrl.go *)

Section Servctrl.

Variable ConfigRuntime : Configuration.

(** StartMS starts the minecraft server *)
Definition StartMS : itree msE (option error) :=
  err <- ITree.trigger (cmdStart (Server_Folder ConfigRuntime)
                                 (Commands_StartServer ConfigRuntime)) ;;
  match err with
  | Some e => Ret (Some ("StartMS: error starting minecraft server: " ++ e)%string)
  | None => Ret None
  end.

(** One turn of [for Stats.Status == "starting" { time.Sleep(1 * time.Second) }]. *)
Definition waitStarting (_ : unit) : itree msE (unit + unit) :=
  status <- ITree.trigger ReadStatus ;;
  if (status =? "starting")%string
  then ITree.trigger (Sleep (1 * Second)) ;; Ret (inl tt)
  else Ret (inr tt).

(** The block under [if playersCheck]: [Some e] is [return e], [None]
    falls through to the stop command. *)
Definition playersCheckBlock : itree msE (option error) :=
  ITree.trigger (AddInt32 (-1)) ;;
  r <- ITree.trigger countPlayerSafe ;;
  let playerCount := fst r in
  let isFromServer := snd r in
  ITree.trigger (Logln [AInt playerCount;
                        AStr "online players - number got from server:";
                        ABool isFromServer]) ;;
  if playerCount >? 0
  then Ret (Some "StopMS: server is not empty")
  else
    pending <- ITree.trigger LoadInt32 ;;
    if pending >? 0
    then
      n <- ITree.trigger ReadStopMSRequests ;;
      Ret (Some ("StopMS: not enough time has passed since last player disconnected (StopMSRequests: "
                   ++ fmt_d n ++ ")")%string)
    else Ret None.

(** From [// execute stop command] to the end of StopMS. *)
Definition executeStop : itree msE (option error) :=
  r <- ITree.trigger (Execute (Commands_StopServer ConfigRuntime) "StopMS") ;;
  match snd r with
  | Some errExec =>
      Ret (Some ("StopMS: error executing minecraft server stop command: "
                   ++ errExec)%string)
  | None =>
      (if Commands_StopServerAllowKill ConfigRuntime >? 0
       then ITree.trigger (Go G_killMSifOnlineAfterTimeout)
       else Ret tt) ;;
      Ret None
  end.

(** From [// if server is not online return] to the end of StopMS. *)
Definition afterWait (playersCheck : bool) : itree msE (option error) :=
  status <- ITree.trigger ReadStatus ;;
  if negb (status =? "online")%string
  then Ret (Some "StopMS: server is not online")
  else
    early <- (if playersCheck then playersCheckBlock else Ret None) ;;
    match early with
    | Some e => Ret (Some e)
    | None => executeStop
    end.

(** StopMS stops the minecraft server.
    When playersCheck == true, it checks for StopMSRequests/Players and
    orders the server shutdown *)
Definition StopMS (playersCheck : bool) : itree msE (option error) :=
  ITree.iter waitStarting tt ;;
  afterWait playersCheck.

(** The func literal of StopMSRequest. *)
Definition StopMSRequest_func1 : itree msE unit :=
  err <- StopMS true ;;
  match err with
  | Some e =>
      if negb (e =? "StopMS: server is not online")%string
      then ITree.trigger (Logln [AStr "StopMSRequest:"; AErr e])
      else Ret tt
  | None => Ret tt
  end.

(** StopMSRequest increases StopMSRequests by one and starts the timer to
    execute StopMS(true) (with playersCheck) *)
Definition StopMSRequest : itree msE unit :=
  ITree.trigger (AddInt32 1) ;;
  ITree.trigger
    (AfterFunc
       (wrap64 (wrap64 (Msh_TimeBeforeStoppingEmptyServer ConfigRuntime) * Second))
       G_func1).

(** One turn of [for countdown > 0 { ... }]: [inr true] is the [return]
    inside the loop, [inr false] leaves the loop.  [countdown--] only
    happens to a positive countdown, so it never wraps. *)
Definition killPoll (countdown : Z) : itree msE (Z + bool) :=
  if countdown >? 0
  then
    status <- ITree.trigger ReadStatus ;;
    if (status =? "offline")%string
    then Ret (inr true)
    else
      let countdown := countdown - 1 in
      ITree.trigger (Sleep Second) ;;
      Ret (inl countdown)
  else Ret (inr false).

(** killMSifOnlineAfterTimeout waits for the specified time and then if
    the server is still online, kills the server process *)
Definition killMSifOnlineAfterTimeout : itree msE unit :=
  returned <- ITree.iter killPoll (Commands_StopServerAllowKill ConfigRuntime) ;;
  if returned : bool
  then Ret tt
  else
    ITree.trigger (Logln [AStr "saving word before killing the minecraft server process"]) ;;
    ITree.trigger (Execute "save-all" "killMSifOnlineAfterTimeout") ;;
    ITree.trigger (Sleep (10 * Second)) ;;
    ITree.trigger (Logln [AStr "send kill signal to minecraft server process since it won't stop normally"]) ;;
    err <- ITree.trigger Kill ;;
    match err with
    | Some e => ITree.trigger (Logln [AStr "killMSifOnlineAfterTimeout: %v"; AErr e])
    | None => Ret tt
    end.

(** What a goroutine of each kind runs; a result nobody waits for is
    dropped. *)
Definition body (g : Goroutine) : itree msE unit :=
  match g with
  | G_StartMS => StartMS ;; Ret tt
  | G_StopMS playersCheck => StopMS playersCheck ;; Ret tt
  | G_StopMSRequest => StopMSRequest
  | G_func1 => StopMSRequest_func1
  | G_killMSifOnlineAfterTimeout => killMSifOnlineAfterTimeout
  end.

(** ** The shared [Stats] *)

(** The two fields of [Stats] that [servctrl.go] uses: a status text and
    the [int32] the atomic operations work on. *)
Record Stats_t : Type := {
  Status : string;
  StopMSRequests : Z
}.

(** What an event of a goroutine needs from [Stats] and does to it. *)
Definition stats_step (st : Stats_t) (ev : Event) : option Stats_t :=
  match ev with
  | EvStatus s => if string_dec s (Status st) then Some st else None
  | EvAddInt32 delta new =>
      if Z.eq_dec new (wrap32 (StopMSRequests st + delta))
      then Some {| Status := Status st; StopMSRequests := new |}
      else None
  | EvLoadInt32 v | EvStopMSRequests v =>
      if Z.eq_dec v (StopMSRequests st) then Some st else None
  | _ => Some st
  end.

(** A goroutine alone with [Stats], except that the rest of the program
    may store a new [Status] between any two of its steps. *)
Inductive Step : Type :=
| Do (ev : Event)
| StoreStatus (s : string).

(** The events the goroutine itself has performed in these steps. *)
Definition performed (steps : list Step) : list Event :=
  flat_map (fun a => match a with Do ev => [ev] | StoreStatus _ => [] end) steps.

(** [Stats] after these steps, when it can answer them as they say. *)
Fixpoint stats_run (st : Stats_t) (steps : list Step) : option Stats_t :=
  match steps with
  | [] => Some st
  | Do ev :: steps' =>
      match stats_step st ev with
      | Some st' => stats_run st' steps'
      | None => None
      end
  | StoreStatus s :: steps' =>
      stats_run {| Status := s; StopMSRequests := StopMSRequests st |} steps'
  end.

(** ** Goroutines and timers, scheduled in any order *)

(** [hist] is a history variable: the events the goroutine has performed
    so far.  Nothing reads it. *)
Record Thread : Type := {
  kind : Goroutine;
  code : itree msE unit;
  hist : list Event
}.

(** A goroutine at the start of its body. *)
Definition spawn (g : Goroutine) : Thread :=
  {| kind := g; code := body g; hist := [] |}.

(** [Stats], the goroutines started so far, and the timers in waiting. *)
Record Pool : Type := {
  stats : Stats_t;
  threads : list Thread;
  timers : list (Z * Goroutine)       (* armed by time.AfterFunc, not yet fired *)
}.

(** What can happen next in a pool. *)
Inductive Action : Type :=
| Run (i : nat) (ev : Event)          (* goroutine i performs ev *)
| Fire (j : nat)                      (* timer j fires: its func starts as a goroutine *)
| SetStatus (s : string).             (* the rest of the program stores Stats.Status *)

(** [l] with [x] at index [i]. *)
Fixpoint update {A : Type} (l : list A) (i : nat) (x : A) : list A :=
  match l, i with
  | [], _ => []
  | _ :: l', O => x :: l'
  | y :: l', S i' => y :: update l' i' x
  end.

(** [l] without its element at index [j]. *)
Fixpoint remove_nth {A : Type} (l : list A) (j : nat) : list A :=
  match l, j with
  | [], _ => []
  | _ :: l', O => l'
  | y :: l', S j' => y :: remove_nth l' j'
  end.

(** The goroutine an event starts. *)
Definition spawned (ev : Event) : list Thread :=
  match ev with
  | EvGo g => [spawn g]
  | _ => []
  end.

(** The timer an event arms. *)
Definition armed (ev : Event) : list (Z * Goroutine) :=
  match ev with
  | EvAfterFunc d g => [(d, g)]
  | _ => []
  end.

(** One action: a goroutine performs an event that [Stats] can answer,
    a timer fires, or [Stats.Status] is stored from outside. *)
Definition pool_step (p : Pool) (a : Action) : option Pool :=
  match a with
  | Run i ev =>
      match nth_error (threads p) i with
      | Some th =>
          match thread_step (code th) ev, stats_step (stats p) ev with
          | Some t', Some st' =>
              Some {| stats := st';
                      threads :=
                        update (threads p) i
                               {| kind := kind th; code := t'; hist := hist th ++ [ev] |}
                        ++ spawned ev;
                      timers := timers p ++ armed ev |}
          | _, _ => None
          end
      | None => None
      end
  | Fire j =>
      match nth_error (timers p) j with
      | Some (_, g) =>
          Some {| stats := stats p;
                  threads := threads p ++ [spawn g];
                  timers := remove_nth (timers p) j |}
      | None => None
      end
  | SetStatus s =>
      Some {| stats := {| Status := s; StopMSRequests := StopMSRequests (stats p) |};
              threads := threads p;
              timers := timers p |}
  end.

(** A schedule: any sequence of actions the pool can take. *)
Fixpoint pool_run (p : Pool) (sched : list Action) : option Pool :=
  match sched with
  | [] => Some p
  | a :: sched' =>
      match pool_step p a with
      | Some p' => pool_run p' sched'
      | None => None
      end
  end.

(** ** What a run looks like

    The traces below name the pieces of a run of [StopMS] and of
    [killMSifOnlineAfterTimeout]; the lemmas further down show that the
    runs of the code are exactly these. *)

(** The errors of [StopMS], under the names of the specification. *)
Definition NotOnlineError : error := "StopMS: server is not online".
Definition ServerNotEmptyError : error := "StopMS: server is not empty".
Definition PendingRequestsError (n : Z) : error :=
  ("StopMS: not enough time has passed since last player disconnected (StopMSRequests: "
     ++ fmt_d n ++ ")")%string.
Definition StopCommandError (errExec : error) : error :=
  ("StopMS: error executing minecraft server stop command: " ++ errExec)%string.

(** [k] turns of the wait for a starting server. *)
Fixpoint waits (k : nat) : list Event :=
  match k with
  | O => []
  | S k' => EvStatus "starting" :: EvSleep (1 * Second) :: EvTau :: waits k'
  end.

(** A run that is still inside the wait. *)
Definition still_waiting (tr : list Event) : Prop :=
  exists k,
    tr = waits k \/
    tr = waits k ++ [EvStatus "starting"] \/
    tr = waits k ++ [EvStatus "starting"; EvSleep (1 * Second)].

(** The log line after [countPlayerSafe]. *)
Definition playersLog (playerCount : Z) (isFromServer : bool) : Event :=
  EvLogln [AInt playerCount; AStr "online players - number got from server:";
           ABool isFromServer].

(** The stop command of the configuration, sent and answered. *)
Definition stopCommand (out : string) (err : option error) : Event :=
  EvExecute (Commands_StopServer ConfigRuntime) "StopMS" out err.

(** Arming the watchdog, when the configuration allows a kill. *)
Definition arm : list Event :=
  if Commands_StopServerAllowKill ConfigRuntime >? 0
  then [EvGo G_killMSifOnlineAfterTimeout]
  else [].

(** From the stop command to the return. *)
Inductive stop_part : list Event -> option error -> Prop :=
| stop_failed out errExec :
    stop_part [stopCommand out (Some errExec)] (Some (StopCommandError errExec))
| stop_issued out :
    stop_part (stopCommand out None :: arm) None.

(** From the decrement to the return, under [playersCheck]. *)
Inductive check_part : list Event -> option error -> Prop :=
| check_not_empty new playerCount isFromServer :
    playerCount > 0 ->
    check_part [EvAddInt32 (-1) new;
                EvCountPlayerSafe playerCount isFromServer;
                playersLog playerCount isFromServer]
               (Some ServerNotEmptyError)
| check_pending new playerCount isFromServer pending n :
    playerCount <= 0 ->
    pending > 0 ->
    check_part [EvAddInt32 (-1) new;
                EvCountPlayerSafe playerCount isFromServer;
                playersLog playerCount isFromServer;
                EvLoadInt32 pending;
                EvStopMSRequests n]
               (Some (PendingRequestsError n))
| check_passed new playerCount isFromServer pending tr r :
    playerCount <= 0 ->
    pending <= 0 ->
    stop_part tr r ->
    check_part (EvAddInt32 (-1) new ::
                EvCountPlayerSafe playerCount isFromServer ::
                playersLog playerCount isFromServer ::
                EvLoadInt32 pending :: tr)
               r.

(** From the test of [Stats.Status] against "online" to the return. *)
Inductive gate_part (playersCheck : bool) : list Event -> option error -> Prop :=
| gate_not_online s :
    s <> "online" ->
    gate_part playersCheck [EvStatus s] (Some NotOnlineError)
| gate_checked tr r :
    playersCheck = true ->
    check_part tr r ->
    gate_part playersCheck (EvStatus "online" :: tr) r
| gate_unchecked tr r :
    playersCheck = false ->
    stop_part tr r ->
    gate_part playersCheck (EvStatus "online" :: tr) r.

(** A whole run of [StopMS]: [k] turns of waiting, the read of
    [Stats.Status] that ends the wait, then the rest. *)
Inductive StopMS_run (playersCheck : bool) : list Event -> option error -> Prop :=
| StopMS_run_intro k s tr r :
    s <> "starting" ->
    gate_part playersCheck tr r ->
    StopMS_run playersCheck (waits k ++ EvStatus s :: tr) r.

(** What the func literal of StopMSRequest logs for the result of StopMS. *)
Definition func1_log (err : option error) : list Event :=
  match err with
  | Some e =>
      if negb (e =? "StopMS: server is not online")%string
      then [EvLogln [AStr "StopMSRequest:"; AErr e]]
      else []
  | None => []
  end.

(** The polls of the watchdog that saw these values of [Stats.Status]. *)
Definition polls (seen : list string) : list Event :=
  flat_map (fun s => [EvStatus s; EvSleep Second; EvTau]) seen.

(** A run of the watchdog that is still inside its countdown of [n] polls. *)
Definition still_polling (n : nat) (tr : list Event) : Prop :=
  exists seen,
    (length seen < n)%nat /\
    Forall (fun s => s <> "offline") seen /\
    (tr = polls seen \/
     exists s, s <> "offline" /\
               (tr = polls seen ++ [EvStatus s] \/
                tr = polls seen ++ [EvStatus s; EvSleep Second])).

(** The duration StopMSRequest hands to [time.AfterFunc]:
    [time.Duration(TimeBeforeStoppingEmptyServer) * time.Second]. *)
Definition idleTimeout : Z :=
  wrap64 (wrap64 (Msh_TimeBeforeStoppingEmptyServer ConfigRuntime) * Second).

(** The two parts of the escalation, before and after the buffer wait. *)
Definition flush (out : string) (errSave : option error) : list Event :=
  [EvLogln [AStr "saving word before killing the minecraft server process"];
   EvExecute "save-all" "killMSifOnlineAfterTimeout" out errSave;
   EvSleep (10 * Second)].

Definition kill (errKill : option error) : list Event :=
  [EvLogln [AStr "send kill signal to minecraft server process since it won't stop normally"];
   EvKill errKill]
  ++ match errKill with
     | Some e => [EvLogln [AStr "killMSifOnlineAfterTimeout: %v"; AErr e]]
     | None => []
     end.

(** The escalation: flush, wait, kill. *)
Definition escalation (out : string) (errSave errKill : option error) : list Event :=
  flush out errSave ++ kill errKill.

(** The number of polls the configured countdown allows. *)
Definition grace : nat := Z.to_nat (Commands_StopServerAllowKill ConfigRuntime).

(** A whole run of the watchdog: disarmed by a poll that reads "offline",
    or all its polls and then the escalation. *)
Inductive kill_run : list Event -> Prop :=
| kill_disarmed seen :
    (length seen < grace)%nat ->
    Forall (fun s => s <> "offline") seen ->
    kill_run (polls seen ++ [EvStatus "offline"])
| kill_escalated seen out errSave errKill :
    length seen = grace ->
    Forall (fun s => s <> "offline") seen ->
    kill_run (polls seen ++ escalation out errSave errKill).

(** What a goroutine of this package may do at all: only the watchdog
    kills, only the others touch the counter and the timers, and a
    watchdog is started only when the configuration allows the kill. *)
Definition permitted (watchdog : bool) (ev : Event) : Prop :=
  match ev with
  | EvGo g =>
      g = G_killMSifOnlineAfterTimeout /\
      Commands_StopServerAllowKill ConfigRuntime > 0 /\
      watchdog = false
  | EvKill _ => watchdog = true
  | EvAddInt32 _ _ => watchdog = false
  | EvAfterFunc _ g => g = G_func1 /\ watchdog = false
  | _ => True
  end.

(** Kinds of goroutines and of events. *)
Definition is_watchdog (g : Goroutine) : bool :=
  match g with G_killMSifOnlineAfterTimeout => true | _ => false end.

(** The value of the counter after a trace, when the answers in the trace
    are the ones the counter gives. *)
Fixpoint counter_run (c : Z) (tr : list Event) : option Z :=
  match tr with
  | [] => Some c
  | EvAddInt32 delta new :: tr' =>
      if Z.eq_dec new (wrap32 (c + delta)) then counter_run new tr' else None
  | EvLoadInt32 v :: tr' | EvStopMSRequests v :: tr' =>
      if Z.eq_dec v c then counter_run c tr' else None
  | _ :: tr' => counter_run c tr'
  end.

(** Counting what a trace does to [Stats.StopMSRequests] and to the timers. *)
Definition delta_of (ev : Event) : Z :=
  match ev with EvAddInt32 delta _ => delta | _ => 0 end.

Definition sum_delta (tr : list Event) : Z :=
  fold_right (fun ev acc => delta_of ev + acc) 0 tr.

Definition is_AfterFunc (ev : Event) : bool :=
  match ev with EvAfterFunc _ _ => true | _ => false end.

Definition is_Go (ev : Event) : bool :=
  match ev with EvGo _ => true | _ => false end.

Definition is_Kill (ev : Event) : bool :=
  match ev with EvKill _ => true | _ => false end.

Definition is_Execute (ev : Event) : bool :=
  match ev with EvExecute _ _ _ _ => true | _ => false end.

Definition is_AddInt32 (ev : Event) : bool :=
  match ev with EvAddInt32 _ _ => true | _ => false end.


Definition is_Status (ev : Event) : bool :=
  match ev with EvStatus _ => true | _ => false end.

(** Neither the stop command nor a change of the counter. *)
Definition quiet (ev : Event) : bool :=
  negb (is_Execute ev) && negb (is_AddInt32 ev).

(** The last value of [Stats.Status] a trace has read. *)
Definition last_status (tr : list Event) : option string :=
  fold_left (fun acc ev => match ev with EvStatus s => Some s | _ => acc end) tr None.

(** ** Bookkeeping over a pool *)

(** The sum of [f] over a list. *)
Definition Zsum {A : Type} (f : A -> Z) (l : list A) : Z :=
  fold_right (fun x acc => f x + acc) 0 l.

(** The timers a trace has armed. *)
Definition armed_by (tr : list Event) : Z :=
  Zsum (fun ev => if is_AfterFunc ev then 1 else 0) tr.

Definition is_func1 (g : Goroutine) : bool :=
  match g with G_func1 => true | _ => false end.

(** What all goroutines together have added to the counter, the timers
    they have armed, and how many of them run the func literal. *)
Definition total_delta (p : Pool) : Z :=
  Zsum (fun th => sum_delta (hist th)) (threads p).

Definition total_armed (p : Pool) : Z :=
  Zsum (fun th => armed_by (hist th)) (threads p).

Definition callbacks (p : Pool) : Z :=
  Zsum (fun th => if is_func1 (kind th) then 1 else 0) (threads p).

(** A func literal that has returned was refused at the gate of StopMS
    when the last Status it read, the one of the gate, was not "online". *)
Definition refused (th : Thread) : bool :=
  is_func1 (kind th) &&
  match last_status (hist th) with
  | Some s => negb (s =? "online")%string
  | None => false
  end.

(** How many func literals were refused at the gate. *)
Definition refusals (p : Pool) : Z :=
  Zsum (fun th => if refused th then 1 else 0) (threads p).

Definition is_request (g : Goroutine) : bool :=
  match g with G_StopMSRequest => true | _ => false end.

(** How many goroutines run StopMSRequest itself. *)
Definition requesters (p : Pool) : Z :=
  Zsum (fun th => if is_request (kind th) then 1 else 0) (threads p).

(** Neither the start of a watchdog nor a kill. *)
Definition harmless (ev : Event) : bool :=
  negb (is_Go ev) && negb (is_Kill ev).

(** Every goroutine is where its history leads from the start of its body. *)
Definition pool_wf (p : Pool) : Prop :=
  Forall (fun th => thread_run (body (kind th)) (hist th) = Some (code th))
         (threads p).

(** A pool at the start: these goroutines, no timer. *)
Definition start (st : Stats_t) (gs : list Goroutine) : Pool :=
  {| stats := st; threads := List.map spawn gs; timers := [] |}.

(** What the pool of StopMSRequest calls keeps true. *)
Definition requests_inv (p : Pool) : Prop :=
  pool_wf p /\
  StopMSRequests (stats p) = wrap32 (total_delta p) /\
  total_armed p = Z.of_nat (length (timers p)) + callbacks p /\
  Forall (fun t => snd t = G_func1) (timers p) /\
  Forall (fun th => kind th = G_StopMSRequest \/ kind th = G_func1 \/
                    kind th = G_killMSifOnlineAfterTimeout) (threads p).

(** What a pool without watchdog keeps true when the kill is not allowed. *)
Definition no_watchdog_inv (p : Pool) : Prop :=
  pool_wf p /\
  Forall (fun th => is_watchdog (kind th) = false) (threads p) /\
  Forall (fun t => is_watchdog (snd t) = false) (timers p).

(** C2 as the specification words it: after any number of StopMSRequest
    calls, once every timer has fired and every goroutine has returned,
    the counter is 0 again. *)
Definition requests_always_drain : Prop :=
  forall n s0 sched p',
    pool_run (start {| Status := s0; StopMSRequests := 0 |} (repeat G_StopMSRequest n))
             sched = Some p' ->
    timers p' = [] ->
    (forall th, In th (threads p') -> result (code th) = Some tt) ->
    StopMSRequests (stats p') = 0.

(** The events of a schedule. *)
Definition events_of (sched : list Action) : list Event :=
  flat_map (fun a => match a with Run _ ev => [ev] | _ => [] end) sched.

(** ** More to read off a trace *)

(** The error of StartMS. *)
Definition StartError (err : error) : error :=
  ("StartMS: error starting minecraft server: " ++ err)%string.

(** How many events of a kind a trace holds. *)
Definition count (f : Event -> bool) (tr : list Event) : nat :=
  length (filter f tr).

(** The time a trace has spent in [time.Sleep], in nanoseconds. *)
Definition slept (tr : list Event) : Z :=
  Zsum (fun ev => match ev with EvSleep d => d | _ => 0 end) tr.

(** Every count of the players in the trace found nobody. *)
Definition server_empty (tr : list Event) : Prop :=
  Forall (fun ev => match ev with EvCountPlayerSafe n _ => n <= 0 | _ => True end) tr.

(** Calls of StopMS(true) one after the other on the same [Stats], each
    run to its return before the next one starts, with nothing else
    touching [Stats]: the trace and the result of each call. *)
Inductive in_turn : Stats_t -> list (list Event * option error) -> Stats_t -> Prop :=
| in_turn_nil st : in_turn st [] st
| in_turn_cons st tr r st1 calls st' :
    outcome (StopMS true) tr = Some (Some r) ->
    stats_run st (List.map Do tr) = Some st1 ->
    in_turn st1 calls st' ->
    in_turn st ((tr, r) :: calls) st'.

(** Every call but the last gives way to the calls still to come and sends
    no command; the last one sends the stop command. *)
Fixpoint debounced (calls : list (list Event * option error)) : Prop :=
  match calls with
  | [] => True
  | (tr, r) :: calls' =>
      match calls' with
      | [] =>
          exists out errExec,
            In (stopCommand out errExec) tr /\ count is_Execute tr = 1%nat /\
            r = option_map StopCommandError errExec
      | _ :: _ =>
          r = Some (PendingRequestsError (Z.of_nat (length calls'))) /\
          count is_Execute tr = 0%nat /\
          debounced calls'
      end
  end.

(** Two goroutines at [Stats], named [false] and [true], their steps in
    the order they take them: the trace of one of them. *)
Definition side (g : bool) (steps : list (bool * Event)) : list Event :=
  List.map snd (filter (fun x => Bool.eqb (fst x) g) steps).


(** ** The step semantics respects strong bisimulation

    so the monad laws and [unfold_iter] of the library rewrite under
    [outcome]. *)

Lemma answer_label {X : Type} (e : msE X) (x : X) : answer e (label e x) = Some x.
Proof.
  unfold answer.
  assert (Hc : carried e (label e x) = Some x).
  { destruct e; cbn; try reflexivity; try (destruct x; reflexivity). }
  rewrite Hc. destruct (Event_eq_dec (label e x) (label e x)); congruence.
Qed.

Lemma answer_sound {X : Type} (e : msE X) (ev : Event) (x : X) :
  answer e ev = Some x -> ev = label e x.
Proof.
  unfold answer. destruct (carried e ev) as [y|]; [|discriminate].
  destruct (Event_eq_dec (label e y) ev); [|discriminate].
  intros [= <-]. auto.
Qed.

Lemma thread_step_eq_itree {R : Type} (t1 t2 : itree msE R) (ev : Event) :
  t1 ≅ t2 ->
  match thread_step t1 ev, thread_step t2 ev with
  | Some u1, Some u2 => u1 ≅ u2
  | None, None => True
  | _, _ => False
  end.
Proof.
  intros H. apply eqit_inv in H. unfold thread_step, observe.
  destruct (_observe t1) as [r1|u1|X1 e1 k1], (_observe t2) as [r2|u2|X2 e2 k2];
    cbn in H; try contradiction; try discriminate; auto.
  - destruct ev; auto.
  - destruct H as (p & He & Hk). destruct p. cbn in He, Hk. subst e2.
    destruct (answer e1 ev); cbn; auto. apply Hk.
Qed.

Lemma result_eq_itree {R : Type} (t1 t2 : itree msE R) :
  t1 ≅ t2 -> result t1 = result t2.
Proof.
  intros H. apply eqit_inv in H. unfold result, observe.
  destruct (_observe t1), (_observe t2);
    cbn in H; try contradiction; try discriminate; auto.
  congruence.
Qed.

#[global] Instance outcome_Proper {R : Type} :
  Proper (eq_itree eq ==> eq ==> eq) (@outcome R).
Proof.
  intros t1 t2 H tr ? <-. unfold outcome. revert t1 t2 H.
  induction tr as [|ev tr IH]; intros t1 t2 H; cbn.
  - f_equal. now apply result_eq_itree.
  - pose proof (thread_step_eq_itree ev H) as Hs.
    destruct (thread_step t1 ev), (thread_step t2 ev); try contradiction; auto.
Qed.

Lemma outcome_nil {R : Type} (t : itree msE R) : outcome t [] = Some (result t).
Proof. reflexivity. Qed.

Lemma result_bind_None {A R : Type} (t : itree msE A) (K : A -> itree msE R) :
  result t = None -> result (t >>= K) = None.
Proof.
  unfold result. rewrite observe_bind.
  destruct (observe t); [discriminate| |]; reflexivity.
Qed.

Lemma step_not_finished {R : Type} (t t' : itree msE R) ev :
  thread_step t ev = Some t' -> result t = None.
Proof.
  unfold thread_step, result. destruct (observe t); [discriminate| |]; reflexivity.
Qed.

Lemma outcome_cons {R : Type} (t : itree msE R) ev tr :
  outcome t (ev :: tr) =
  match thread_step t ev with Some t' => outcome t' tr | None => None end.
Proof. unfold outcome. cbn. destruct (thread_step t ev); reflexivity. Qed.

Lemma outcome_Ret {R : Type} (r : R) tr :
  outcome (Ret r) tr = match tr with [] => Some (Some r) | _ :: _ => None end.
Proof. destruct tr; reflexivity. Qed.

Lemma outcome_Tau {R : Type} (t : itree msE R) tr :
  outcome (Tau t) tr =
  match tr with
  | [] => Some None
  | ev :: tr' => match ev with EvTau => outcome t tr' | _ => None end
  end.
Proof. destruct tr as [|[] tr]; reflexivity. Qed.

Lemma outcome_Vis {R X : Type} (e : msE X) (k : X -> itree msE R) tr :
  outcome (Vis e k) tr =
  match tr with
  | [] => Some None
  | ev :: tr' =>
      match answer e ev with Some x => outcome (k x) tr' | None => None end
  end.
Proof.
  destruct tr as [|ev tr]; [reflexivity|].
  rewrite outcome_cons. unfold thread_step. cbn.
  destruct (answer e ev); reflexivity.
Qed.

Lemma outcome_trigger_bind {R X : Type} (e : msE X) (k : X -> itree msE R) tr :
  outcome (ITree.bind (ITree.trigger e) k) tr =
  match tr with
  | [] => Some None
  | ev :: tr' =>
      match answer e ev with Some x => outcome (k x) tr' | None => None end
  end.
Proof. rewrite bind_trigger. apply outcome_Vis. Qed.

Lemma outcome_trigger {X : Type} (e : msE X) tr :
  outcome (ITree.trigger e) tr =
  match tr with
  | [] => Some None
  | ev :: tr' =>
      match answer e ev with Some x => outcome (Ret x) tr' | None => None end
  end.
Proof. unfold ITree.trigger. apply outcome_Vis. Qed.

(** ** Running the code symbolically *)

Lemma answer_ReadStatus s : answer ReadStatus (EvStatus s) = Some s.
Proof. exact (answer_label ReadStatus s). Qed.
Lemma answer_Sleep d : answer (Sleep d) (EvSleep d) = Some tt.
Proof. exact (answer_label (Sleep d) tt). Qed.
Lemma answer_AddInt32 delta new : answer (AddInt32 delta) (EvAddInt32 delta new) = Some new.
Proof. exact (answer_label (AddInt32 delta) new). Qed.
Lemma answer_LoadInt32 v : answer LoadInt32 (EvLoadInt32 v) = Some v.
Proof. exact (answer_label LoadInt32 v). Qed.
Lemma answer_ReadStopMSRequests v : answer ReadStopMSRequests (EvStopMSRequests v) = Some v.
Proof. exact (answer_label ReadStopMSRequests v). Qed.
Lemma answer_countPlayerSafe n b : answer countPlayerSafe (EvCountPlayerSafe n b) = Some (n, b).
Proof. exact (answer_label countPlayerSafe (n, b)). Qed.
Lemma answer_Logln args : answer (Logln args) (EvLogln args) = Some tt.
Proof. exact (answer_label (Logln args) tt). Qed.
Lemma answer_Execute c o out err : answer (Execute c o) (EvExecute c o out err) = Some (out, err).
Proof. exact (answer_label (Execute c o) (out, err)). Qed.
Lemma answer_cmdStart d c err : answer (cmdStart d c) (EvCmdStart d c err) = Some err.
Proof. exact (answer_label (cmdStart d c) err). Qed.
Lemma answer_Kill err : answer Kill (EvKill err) = Some err.
Proof. exact (answer_label Kill err). Qed.
Lemma answer_Go g : answer (Go g) (EvGo g) = Some tt.
Proof. exact (answer_label (Go g) tt). Qed.
Lemma answer_AfterFunc d g : answer (AfterFunc d g) (EvAfterFunc d g) = Some tt.
Proof. exact (answer_label (AfterFunc d g) tt). Qed.

Ltac answers :=
  rewrite ?answer_ReadStatus, ?answer_Sleep, ?answer_AddInt32, ?answer_LoadInt32,
    ?answer_ReadStopMSRequests, ?answer_countPlayerSafe, ?answer_Logln,
    ?answer_Execute, ?answer_cmdStart, ?answer_Kill, ?answer_Go,
    ?answer_AfterFunc.

(** Take the next event off the trace in [H : outcome _ tr = _], when the
    code starts with an effect, and name its answer; the empty trace is
    left to the caller. *)
Tactic Notation "next_event" hyp(H) "as" simple_intropattern(p) :=
  first [rewrite outcome_trigger_bind in H | rewrite outcome_trigger in H];
  lazymatch type of H with
  | match ?tr with [] => _ | _ :: _ => _ end = _ =>
      let ev := fresh "ev" in
      let tr' := fresh "tr" in
      destruct tr as [|ev tr'];
      [ | lazymatch type of H with
          | match answer ?e ev with _ => _ end = _ =>
              let A := fresh "A" in
              destruct (answer e ev) as [p|] eqn:A; try rewrite A in H;
              [apply answer_sound in A; cbn [label fst snd] in A; subst ev;
               cbn [fst snd] in H
              | discriminate H]
          end ]
  end.

(** The same, forwards: the goal runs the code on a trace that starts with
    the right event. *)
Ltac play :=
  repeat first
    [ rewrite outcome_trigger_bind
    | rewrite outcome_trigger
    | rewrite outcome_Ret
    | progress answers
    | progress cbn [fst snd negb] ].

Lemma wait_turn {R : Type} (K : unit -> itree msE R) tr :
  outcome (ITree.iter waitStarting tt >>= K)
          (EvStatus "starting" :: EvSleep (1 * Second) :: EvTau :: tr)
  = outcome (ITree.iter waitStarting tt >>= K) tr.
Proof.
  rewrite unfold_iter at 1. unfold waitStarting at 1. rewrite !bind_bind.
  play. cbn [String.eqb Ascii.eqb Bool.eqb andb].
  rewrite !bind_bind. play. rewrite !bind_ret_l, bind_tau, outcome_Tau. reflexivity.
Qed.

Lemma wait_over {R : Type} (K : unit -> itree msE R) s tr :
  s <> "starting" ->
  outcome (ITree.iter waitStarting tt >>= K) (EvStatus s :: tr) = outcome (K tt) tr.
Proof.
  intros Hs. rewrite unfold_iter. unfold waitStarting at 1. rewrite !bind_bind.
  play. destruct (String.eqb_spec s "starting"); [contradiction|].
  rewrite !bind_ret_l. reflexivity.
Qed.

Lemma wait_waits {R : Type} (K : unit -> itree msE R) k tr :
  outcome (ITree.iter waitStarting tt >>= K) (waits k ++ tr)
  = outcome (ITree.iter waitStarting tt >>= K) tr.
Proof.
  induction k as [|k IH]; [reflexivity|].
  cbn [waits app]. rewrite wait_turn. exact IH.
Qed.

(** Every run of the wait, finished or not. *)
Lemma wait_inv {R : Type} (K : unit -> itree msE R) tr o :
  outcome (ITree.iter waitStarting tt >>= K) tr = Some o ->
  (still_waiting tr /\ o = None) \/
  (exists k s rest,
      s <> "starting" /\ tr = waits k ++ EvStatus s :: rest /\
      outcome (K tt) rest = Some o).
Proof.
  remember (length tr) as n eqn:Hn. revert tr Hn.
  induction n as [n IH] using lt_wf_ind. intros tr Hn H.
  rewrite unfold_iter in H. unfold waitStarting at 1 in H. rewrite !bind_bind in H.
  next_event H as status.
  { left. split; [exists O; auto|]. now injection H as <-. }
  destruct (String.eqb_spec status "starting") as [->|Hx].
  - rewrite !bind_bind in H. next_event H as [].
    { left. split; [exists O; cbn; auto|]. now injection H as <-. }
    rewrite !bind_ret_l, bind_tau, outcome_Tau in H.
    destruct tr as [|ev tr].
    { left. split; [exists O; cbn; auto|]. now injection H as <-. }
    destruct ev; try discriminate H.
    destruct (IH (length tr)) with (tr := tr)
      as [[[k Hk] Ho]|(k & s & rest & Hs & Htr & Hr)]; auto.
    + subst n. cbn. lia.
    + left. split; [|exact Ho]. exists (S k). cbn [waits app].
      destruct Hk as [ -> | [ -> | -> ] ]; auto.
    + right. exists (S k), s, rest. subst tr. auto.
  - rewrite !bind_ret_l in H. right. exists O, status.
    eexists. split; [exact Hx|]. split; [reflexivity|exact H].
Qed.


(** ** Sequencing

    A run of [t >>= K] is a run of [t] that is not finished, or a finished
    run of [t] followed by a run of [K] on its result. *)

Lemma result_Ret_eq {R : Type} (t : itree msE R) (r : R) :
  result t = Some r -> t ≅ Ret r.
Proof.
  unfold result. intros H. rewrite (itree_eta t).
  destruct (observe t); try discriminate H. injection H as ->. reflexivity.
Qed.

Lemma thread_step_bind {A R : Type} (t : itree msE A) (K : A -> itree msE R) ev :
  result t = None ->
  thread_step (t >>= K) ev = option_map (fun t' => t' >>= K) (thread_step t ev).
Proof.
  unfold result, thread_step. rewrite observe_bind.
  destruct (observe t) as [a|t'|X e k]; [discriminate| |]; intros _; cbn.
  - destruct ev; reflexivity.
  - destruct (answer e ev); reflexivity.
Qed.

Lemma outcome_bind_finished {A R : Type} (t : itree msE A) (K : A -> itree msE R)
      tr1 tr2 a :
  outcome t tr1 = Some (Some a) ->
  outcome (t >>= K) (tr1 ++ tr2) = outcome (K a) tr2.
Proof.
  revert t. induction tr1 as [|ev tr1 IH]; intros t H.
  - rewrite outcome_nil in H. injection H as H.
    rewrite (result_Ret_eq _ H), bind_ret_l. reflexivity.
  - rewrite outcome_cons in H. cbn [app]. rewrite outcome_cons.
    destruct (thread_step t ev) as [t'|] eqn:Hs; try rewrite Hs in H;
      [|discriminate H].
    rewrite thread_step_bind, Hs by (eapply step_not_finished; eauto).
    cbn. now apply IH.
Qed.

Lemma outcome_bind_running {A R : Type} (t : itree msE A) (K : A -> itree msE R) tr :
  outcome t tr = Some None ->
  outcome (t >>= K) tr = Some None.
Proof.
  revert t. induction tr as [|ev tr IH]; intros t H.
  - rewrite outcome_nil in H. rewrite outcome_nil. injection H as H. f_equal.
    now apply result_bind_None.
  - rewrite outcome_cons in H. rewrite outcome_cons.
    destruct (thread_step t ev) as [t'|] eqn:Hs; try rewrite Hs in H;
      [|discriminate H].
    rewrite thread_step_bind, Hs by (eapply step_not_finished; eauto).
    cbn. now apply IH.
Qed.

Lemma outcome_bind_inv {A R : Type} (t : itree msE A) (K : A -> itree msE R) tr o :
  outcome (t >>= K) tr = Some o ->
  (outcome t tr = Some None /\ o = None) \/
  (exists tr1 tr2 a,
      tr = tr1 ++ tr2 /\ outcome t tr1 = Some (Some a) /\
      outcome (K a) tr2 = Some o).
Proof.
  revert t. induction tr as [|ev tr IH]; intros t H.
  - destruct (result t) as [a|] eqn:Hr.
    + right. exists [], [], a. rewrite (result_Ret_eq _ Hr), bind_ret_l in H.
      split; [reflexivity|]. split; [|exact H]. rewrite outcome_nil. now f_equal.
    + left. rewrite outcome_nil in H. rewrite outcome_nil.
      rewrite (result_bind_None _ _ Hr) in H.
      injection H as <-. rewrite Hr. auto.
  - destruct (result t) as [a|] eqn:Hr.
    + right. exists [], (ev :: tr), a. rewrite (result_Ret_eq _ Hr), bind_ret_l in H.
      split; [reflexivity|]. split; [|exact H]. rewrite outcome_nil. now f_equal.
    + rewrite outcome_cons, thread_step_bind in H by assumption.
      rewrite outcome_cons.
      destruct (thread_step t ev) as [t'|] eqn:Hs; try rewrite Hs in H;
      [|discriminate H]. cbn in H.
      destruct (IH _ H) as [[H1 Ho]|(tr1 & tr2 & a & Htr & H1 & H2)].
      * left. auto.
      * right. exists (ev :: tr1), tr2, a. subst tr. split; [reflexivity|].
        rewrite outcome_cons, Hs. auto.
Qed.

(** ** The runs of StopMS *)

(** A finished run cannot stop before the next effect. *)
Tactic Notation "next_event'" hyp(H) "as" simple_intropattern(p) :=
  next_event H as p; [discriminate H|].

(** The code has returned: the trace ends here. *)
Ltac returned H :=
  rewrite outcome_Ret in H;
  lazymatch type of H with
  | match ?tr with [] => _ | _ :: _ => _ end = _ =>
      destruct tr; [|discriminate H]
  end;
  first [injection H as <- | clear H].

Lemma executeStop_runs tr r :
  outcome executeStop tr = Some (Some r) <-> stop_part tr r.
Proof.
  unfold executeStop. split.
  - intros H. next_event' H as [out errExec].
    destruct errExec as [errExec|].
    + returned H. apply stop_failed.
    + pose proof (stop_issued out) as S. unfold arm in S.
      destruct (Commands_StopServerAllowKill ConfigRuntime >? 0).
      * next_event' H as []. returned H. exact S.
      * rewrite bind_ret_l in H. returned H. exact S.
  - intros [out errExec|out]; unfold stopCommand, arm.
    + play. reflexivity.
    + play. destruct (Commands_StopServerAllowKill ConfigRuntime >? 0).
      * play. reflexivity.
      * rewrite bind_ret_l. play. reflexivity.
Qed.

Lemma playersCheck_runs tr r :
  outcome (early <- playersCheckBlock ;;
           match early with
           | Some e => Ret (Some e)
           | None => executeStop
           end) tr = Some (Some r)
  <-> check_part tr r.
Proof.
  unfold playersCheckBlock. split.
  - intros H. rewrite !bind_bind in H. next_event' H as new.
    rewrite !bind_bind in H. next_event' H as [playerCount isFromServer].
    rewrite !bind_bind in H. next_event' H as [].
    destruct (Z.gtb_spec playerCount 0) as [Hp|Hp].
    + rewrite bind_ret_l in H. returned H. apply check_not_empty. lia.
    + rewrite !bind_bind in H. next_event' H as pending.
      destruct (Z.gtb_spec pending 0) as [Hq|Hq].
      * rewrite !bind_bind in H. next_event' H as n.
        rewrite bind_ret_l in H. returned H. apply check_pending; lia.
      * rewrite bind_ret_l in H. apply executeStop_runs in H.
        apply check_passed; auto.
  - intros [new n b Hn|new n b p m Hn Hp|new n b p tr' r' Hn Hp Hs];
      unfold playersLog; rewrite !bind_bind; play; rewrite !bind_bind; play;
      rewrite !bind_bind; play.
    + destruct (Z.gtb_spec n 0); [|lia]. rewrite bind_ret_l. play. reflexivity.
    + destruct (Z.gtb_spec n 0); [lia|]. rewrite !bind_bind. play.
      destruct (Z.gtb_spec p 0); [|lia]. rewrite !bind_bind. play.
      rewrite bind_ret_l. play. reflexivity.
    + destruct (Z.gtb_spec n 0); [lia|]. rewrite !bind_bind. play.
      destruct (Z.gtb_spec p 0); [lia|]. rewrite bind_ret_l.
      now apply executeStop_runs.
Qed.

Lemma afterWait_runs playersCheck tr r :
  outcome (afterWait playersCheck) tr = Some (Some r) <-> gate_part playersCheck tr r.
Proof.
  unfold afterWait. split.
  - intros H. next_event' H as status.
    destruct (String.eqb_spec status "online") as [Hx|Hx];
      [subst status|]; cbn [negb] in H.
    + destruct playersCheck.
      * apply playersCheck_runs in H. now apply gate_checked.
      * rewrite bind_ret_l in H. apply executeStop_runs in H. now apply gate_unchecked.
    + returned H. now apply gate_not_online.
  - intros [s Hs|tr' r' -> Hc|tr' r' -> Hc]; play.
    + destruct (String.eqb_spec s "online"); [contradiction|]. play. reflexivity.
    + cbn [String.eqb Ascii.eqb Bool.eqb andb negb]. now apply playersCheck_runs.
    + cbn [String.eqb Ascii.eqb Bool.eqb andb negb]. rewrite bind_ret_l.
      now apply executeStop_runs.
Qed.

(** The finished runs of StopMS are exactly the traces of [StopMS_run]. *)
Lemma StopMS_runs playersCheck tr r :
  outcome (StopMS playersCheck) tr = Some (Some r) <-> StopMS_run playersCheck tr r.
Proof.
  unfold StopMS. split.
  - intros H. apply wait_inv in H.
    destruct H as [[_ H]|(k & s & rest & Hs & -> & H)]; [discriminate H|].
    apply afterWait_runs in H. now constructor.
  - intros [k s tr' r' Hs Hg]. rewrite wait_waits, wait_over by assumption.
    now apply afterWait_runs.
Qed.


(** ** The runs of killMSifOnlineAfterTimeout *)

Lemma poll_expired {R : Type} (K : bool -> itree msE R) c tr :
  c <= 0 ->
  outcome (ITree.iter killPoll c >>= K) tr = outcome (K false) tr.
Proof.
  intros Hc. rewrite unfold_iter. unfold killPoll at 1.
  destruct (Z.gtb_spec c 0); [lia|]. rewrite !bind_ret_l. reflexivity.
Qed.

Lemma poll_offline {R : Type} (K : bool -> itree msE R) c tr :
  c > 0 ->
  outcome (ITree.iter killPoll c >>= K) (EvStatus "offline" :: tr) = outcome (K true) tr.
Proof.
  intros Hc. rewrite unfold_iter. unfold killPoll at 1.
  destruct (Z.gtb_spec c 0); [|lia]. rewrite !bind_bind. play.
  cbn [String.eqb Ascii.eqb Bool.eqb andb]. rewrite !bind_ret_l. reflexivity.
Qed.

Lemma poll_turn {R : Type} (K : bool -> itree msE R) c s tr :
  c > 0 ->
  s <> "offline" ->
  outcome (ITree.iter killPoll c >>= K) (EvStatus s :: EvSleep Second :: EvTau :: tr)
  = outcome (ITree.iter killPoll (c - 1) >>= K) tr.
Proof.
  intros Hc Hs. rewrite unfold_iter at 1. unfold killPoll at 1.
  destruct (Z.gtb_spec c 0); [|lia]. rewrite !bind_bind. play.
  destruct (String.eqb_spec s "offline"); [contradiction|].
  rewrite !bind_bind. play. rewrite !bind_ret_l, bind_tau, outcome_Tau. reflexivity.
Qed.

Lemma poll_polls {R : Type} (K : bool -> itree msE R) seen c tr :
  Forall (fun s => s <> "offline") seen ->
  (length seen <= Z.to_nat c)%nat ->
  outcome (ITree.iter killPoll c >>= K) (polls seen ++ tr)
  = outcome (ITree.iter killPoll (c - Z.of_nat (length seen)) >>= K) tr.
Proof.
  intros Hseen. revert c. induction Hseen as [|s seen Hs _ IH]; intros c Hc.
  - cbn. now rewrite Z.sub_0_r.
  - cbn [length] in Hc. cbn [polls flat_map app]. rewrite poll_turn by (auto; lia).
    fold (polls seen). rewrite IH by lia. do 3 f_equal. cbn [length]. lia.
Qed.

(** Every run of the countdown, finished or not. *)
Lemma poll_inv {R : Type} (K : bool -> itree msE R) n :
  forall c tr o,
    Z.to_nat c = n ->
    outcome (ITree.iter killPoll c >>= K) tr = Some o ->
    (still_polling n tr /\ o = None) \/
    (exists seen rest,
        (length seen < n)%nat /\ Forall (fun s => s <> "offline") seen /\
        tr = polls seen ++ EvStatus "offline" :: rest /\
        outcome (K true) rest = Some o) \/
    (exists seen rest,
        length seen = n /\ Forall (fun s => s <> "offline") seen /\
        tr = polls seen ++ rest /\
        outcome (K false) rest = Some o).
Proof.
  induction n as [|n IH]; intros c tr o Hc H.
  - rewrite poll_expired in H by lia. right. right. exists [], tr. auto.
  - rewrite unfold_iter in H. unfold killPoll at 1 in H.
    destruct (Z.gtb_spec c 0); [|lia]. rewrite !bind_bind in H.
    next_event H as status.
    { left. injection H as <-. split; [|reflexivity].
      exists []. cbn. split; [lia|]. auto. }
    destruct (String.eqb_spec status "offline") as [Hs|Hs].
    { subst status. rewrite !bind_ret_l in H. right. left. exists []. eexists.
      cbn. split; [lia|]. split; [constructor|]. split; [reflexivity|exact H]. }
    rewrite !bind_bind in H. next_event H as [].
    { left. injection H as <-. split; [|reflexivity].
      exists []. cbn. split; [lia|]. split; [constructor|]. right. exists status. auto. }
    rewrite !bind_ret_l, bind_tau, outcome_Tau in H.
    destruct tr as [|ev tr].
    { left. injection H as <-. split; [|reflexivity].
      exists []. cbn. split; [lia|]. split; [constructor|]. right. exists status. auto. }
    destruct ev; try discriminate H.
    apply IH in H; [|lia].
    destruct H as [[(seen & Hl & Hf & Ht) Ho]
                  |[(seen & rest & Hl & Hf & Ht & Hr)|(seen & rest & Hl & Hf & Ht & Hr)]].
    + left. split; [|exact Ho]. exists (status :: seen). cbn [length polls flat_map app].
      fold (polls seen). split; [lia|]. split; [constructor; auto|].
      destruct Ht as [Ht|(s & Hs' & [Ht|Ht])]; subst tr; [left|right; exists s..]; auto.
    + right. left. exists (status :: seen), rest. cbn [length polls flat_map app].
      fold (polls seen). subst tr. split; [lia|]. split; [constructor; auto|]. auto.
    + right. right. exists (status :: seen), rest. cbn [length polls flat_map app].
      fold (polls seen). subst tr. split; [lia|]. split; [constructor; auto|]. auto.
Qed.

(** The code after the countdown has run out. *)
Lemma escalation_runs tr :
  outcome
    (ITree.trigger (Logln [AStr "saving word before killing the minecraft server process"]) ;;
     ITree.trigger (Execute "save-all" "killMSifOnlineAfterTimeout") ;;
     ITree.trigger (Sleep (10 * Second)) ;;
     ITree.trigger (Logln [AStr "send kill signal to minecraft server process since it won't stop normally"]) ;;
     err <- ITree.trigger Kill ;;
     match err with
     | Some e => ITree.trigger (Logln [AStr "killMSifOnlineAfterTimeout: %v"; AErr e])
     | None => Ret tt
     end) tr = Some (Some tt)
  <-> exists out errSave errKill, tr = escalation out errSave errKill.
Proof.
  split.
  - intros H. next_event' H as []. next_event' H as [out errSave].
    next_event' H as []. next_event' H as []. next_event' H as errKill.
    exists out, errSave, errKill. destruct errKill as [e|].
    + next_event' H as []. returned H. reflexivity.
    + returned H. reflexivity.
  - intros (out & errSave & errKill & ->). unfold escalation, flush, kill. cbn [app].
    play. destruct errKill; cbn [app]; play; reflexivity.
Qed.

Lemma killMSifOnlineAfterTimeout_runs tr :
  outcome killMSifOnlineAfterTimeout tr = Some (Some tt) <-> kill_run tr.
Proof.
  unfold killMSifOnlineAfterTimeout. split.
  - intros H. apply (@poll_inv _ _ grace) in H; [|reflexivity].
    destruct H as [[_ H]
                  |[(seen & rest & Hl & Hf & -> & Hr)|(seen & rest & Hl & Hf & -> & Hr)]].
    + discriminate H.
    + returned Hr. now apply kill_disarmed.
    + apply escalation_runs in Hr. destruct Hr as (out & errSave & errKill & ->).
      now apply kill_escalated.
  - intros [seen Hl Hf|seen out errSave errKill Hl Hf]; unfold grace in Hl.
    + rewrite poll_polls by (try assumption; lia).
      rewrite poll_offline by lia. reflexivity.
    + rewrite poll_polls by (try assumption; lia). rewrite poll_expired by lia.
      apply escalation_runs. eauto.
Qed.


(** ** The runs of StopMSRequest and of its func literal *)

Lemma StopMSRequest_runs tr :
  outcome StopMSRequest tr = Some (Some tt) <->
  exists new, tr = [EvAddInt32 1 new; EvAfterFunc idleTimeout G_func1].
Proof.
  unfold StopMSRequest. split.
  - intros H. next_event' H as new. next_event' H as []. returned H. eauto.
  - intros [new ->]. play. reflexivity.
Qed.

Lemma func1_log_runs err tr :
  outcome
    match err with
    | Some e =>
        if negb (e =? "StopMS: server is not online")%string
        then ITree.trigger (Logln [AStr "StopMSRequest:"; AErr e])
        else Ret tt
    | None => Ret tt
    end tr = Some (Some tt)
  <-> tr = func1_log err.
Proof.
  unfold func1_log. destruct err as [e|].
  - destruct (negb (e =? "StopMS: server is not online")%string).
    + split.
      * intros H. next_event' H as []. returned H. reflexivity.
      * intros ->. play. reflexivity.
    + rewrite outcome_Ret. destruct tr; split; congruence.
  - rewrite outcome_Ret. destruct tr; split; congruence.
Qed.

Lemma StopMSRequest_func1_runs tr :
  outcome StopMSRequest_func1 tr = Some (Some tt) <->
  exists tr0 err,
    outcome (StopMS true) tr0 = Some (Some err) /\ tr = tr0 ++ func1_log err.
Proof.
  unfold StopMSRequest_func1. split.
  - intros H. apply outcome_bind_inv in H.
    destruct H as [[_ H]|(tr1 & tr2 & err & -> & H1 & H2)]; [discriminate H|].
    apply func1_log_runs in H2. subst tr2. eauto.
  - intros (tr0 & err & H & ->).
    erewrite outcome_bind_finished by exact H. now apply func1_log_runs.
Qed.

(** ** What the goroutines may do *)

Ltac walk_event H p :=
  next_event H as p; [apply Forall_nil | apply Forall_cons; [cbn; auto|]].

Ltac walk_return H :=
  rewrite outcome_Ret in H;
  lazymatch type of H with
  | match ?tr with [] => _ | _ :: _ => _ end = _ =>
      destruct tr; [apply Forall_nil | discriminate H]
  end.

Lemma Forall_waits (P : Event -> Prop) k :
  P (EvStatus "starting") -> P (EvSleep (1 * Second)) -> P EvTau ->
  Forall P (waits k).
Proof. intros. induction k; cbn [waits]; auto. Qed.

Lemma Forall_polls (P : Event -> Prop) seen :
  (forall s, P (EvStatus s)) -> P (EvSleep Second) -> P EvTau ->
  Forall P (polls seen).
Proof. intros. induction seen; cbn [polls flat_map app]; auto. Qed.

Lemma executeStop_permitted tr o :
  outcome executeStop tr = Some o -> Forall (permitted false) tr.
Proof.
  unfold executeStop. intros H. walk_event H ipattern:([out errExec]).
  destruct errExec as [errExec|].
  - walk_return H.
  - destruct (Z.gtb_spec (Commands_StopServerAllowKill ConfigRuntime) 0).
    + walk_event H ipattern:([]). { repeat split; auto. lia. }
      walk_return H.
    + rewrite bind_ret_l in H. walk_return H.
Qed.

Lemma afterWait_permitted playersCheck tr o :
  outcome (afterWait playersCheck) tr = Some o -> Forall (permitted false) tr.
Proof.
  unfold afterWait. intros H. walk_event H status.
  destruct (negb (status =? "online")%string); [walk_return H|].
  destruct playersCheck.
  - unfold playersCheckBlock in H. rewrite !bind_bind in H. walk_event H new.
    rewrite !bind_bind in H. walk_event H ipattern:([playerCount isFromServer]).
    rewrite !bind_bind in H. walk_event H ipattern:([]).
    destruct (playerCount >? 0).
    + rewrite bind_ret_l in H. walk_return H.
    + rewrite !bind_bind in H. walk_event H pending.
      destruct (pending >? 0).
      * rewrite !bind_bind in H. walk_event H n. rewrite bind_ret_l in H. walk_return H.
      * rewrite bind_ret_l in H. eapply executeStop_permitted; eauto.
  - rewrite bind_ret_l in H. eapply executeStop_permitted; eauto.
Qed.

Lemma StopMS_permitted playersCheck tr o :
  outcome (StopMS playersCheck) tr = Some o -> Forall (permitted false) tr.
Proof.
  unfold StopMS. intros H. apply wait_inv in H.
  destruct H as [[[k Hk] _]|(k & s & rest & Hs & -> & H)].
  - destruct Hk as [ -> | [ -> | -> ] ]; rewrite ?Forall_app; repeat split;
      try apply Forall_waits; repeat constructor.
  - rewrite Forall_app. split; [apply Forall_waits; cbn; auto|].
    constructor; [cbn; auto|]. eapply afterWait_permitted; eauto.
Qed.

Lemma killMSifOnlineAfterTimeout_permitted tr o :
  outcome killMSifOnlineAfterTimeout tr = Some o -> Forall (permitted true) tr.
Proof.
  unfold killMSifOnlineAfterTimeout. intros H.
  apply (@poll_inv _ _ grace) in H; [|reflexivity].
  destruct H as [[(seen & _ & _ & Ht) _]
                |[(seen & rest & _ & _ & -> & H)|(seen & rest & _ & _ & -> & H)]].
  - destruct Ht as [ -> | (s & _ & [ -> | -> ]) ]; rewrite ?Forall_app; repeat split;
      try apply Forall_polls; repeat constructor.
  - rewrite Forall_app. split; [apply Forall_polls; cbn; auto|].
    constructor; [cbn; auto|]. walk_return H.
  - rewrite Forall_app. split; [apply Forall_polls; cbn; auto|].
    walk_event H ipattern:([]). walk_event H ipattern:([out errSave]).
    walk_event H ipattern:([]). walk_event H ipattern:([]). walk_event H errKill.
    destruct errKill.
    + walk_event H ipattern:([]). walk_return H.
    + walk_return H.
Qed.

Lemma body_permitted g tr o :
  outcome (body g) tr = Some o -> Forall (permitted (is_watchdog g)) tr.
Proof.
  destruct g; cbn [body is_watchdog]; intros H.
  - unfold StartMS in H. rewrite !bind_bind in H. walk_event H err.
    destruct err; rewrite !bind_ret_l in H; walk_return H.
  - apply outcome_bind_inv in H.
    destruct H as [[H _]|(tr1 & tr2 & err & -> & H1 & H2)].
    + eapply StopMS_permitted; eauto.
    + rewrite Forall_app. split; [eapply StopMS_permitted; eauto|]. walk_return H2.
  - unfold StopMSRequest in H. walk_event H new. walk_event H ipattern:([]).
    walk_return H.
  - unfold StopMSRequest_func1 in H. apply outcome_bind_inv in H.
    destruct H as [[H _]|(tr1 & tr2 & err & -> & H1 & H2)].
    + eapply StopMS_permitted; eauto.
    + rewrite Forall_app. split; [eapply StopMS_permitted; eauto|].
      destruct err as [e|]; [|walk_return H2].
      destruct (negb (e =? "StopMS: server is not online")%string); [|walk_return H2].
      walk_event H2 ipattern:([]). walk_return H2.
  - eapply killMSifOnlineAfterTimeout_permitted; eauto.
Qed.


(** ** Stats along a run *)

Lemma performed_map_Do tr : performed (List.map Do tr) = tr.
Proof. induction tr as [|ev tr IH]; cbn; [reflexivity|]. now f_equal. Qed.

Lemma stats_step_counter st ev st' :
  stats_step st ev = Some st' ->
  counter_run (StopMSRequests st) [ev] = Some (StopMSRequests st') /\
  Status st' = Status st.
Proof.
  destruct ev; cbn; try (intros [= <-]; auto).
  - destruct (string_dec s (Status st)); intros [= <-]; auto.
  - destruct (Z.eq_dec new (wrap32 (StopMSRequests st + delta))); intros [= <-]; auto.
  - destruct (Z.eq_dec v (StopMSRequests st)); intros [= <-]; auto.
  - destruct (Z.eq_dec v (StopMSRequests st)); intros [= <-]; auto.
Qed.

Lemma counter_run_cons c ev tr :
  counter_run c (ev :: tr) =
  match counter_run c [ev] with Some c' => counter_run c' tr | None => None end.
Proof.
  destruct ev; cbn; try reflexivity.
  - destruct (Z.eq_dec new (wrap32 (c + delta))); reflexivity.
  - destruct (Z.eq_dec v c); reflexivity.
  - destruct (Z.eq_dec v c); reflexivity.
Qed.

Lemma counter_run_app c tr1 tr2 :
  counter_run c (tr1 ++ tr2) =
  match counter_run c tr1 with Some c' => counter_run c' tr2 | None => None end.
Proof.
  revert c. induction tr1 as [|ev tr1 IH]; intros c; [reflexivity|].
  cbn [app]. rewrite counter_run_cons, (counter_run_cons c ev tr1).
  destruct (counter_run c [ev]); auto.
Qed.

Lemma counter_run_waits c k : counter_run c (waits k) = Some c.
Proof. induction k; cbn; auto. Qed.

(** The counter a goroutine leaves behind is the one its own events
    produce: storing [Stats.Status] does not touch it. *)
Lemma stats_run_counter steps : forall st st',
  stats_run st steps = Some st' ->
  counter_run (StopMSRequests st) (performed steps) = Some (StopMSRequests st').
Proof.
  induction steps as [|[ev|s] steps IH]; intros st st' H; cbn [stats_run] in H.
  - now injection H as <-.
  - change (performed (Do ev :: steps)) with (ev :: performed steps).
    destruct (stats_step st ev) as [st1|] eqn:Hs; [|discriminate H].
    apply stats_step_counter in Hs. destruct Hs as [Hc _].
    rewrite counter_run_cons, Hc. now apply IH.
  - change (performed (StoreStatus s :: steps)) with (performed steps).
    apply IH in H. exact H.
Qed.

(** No event of a goroutine of this package stores [Stats.Status]. *)
Lemma stats_run_Status tr : forall st st',
  stats_run st (List.map Do tr) = Some st' -> Status st' = Status st.
Proof.
  induction tr as [|ev tr IH]; intros st st' H; cbn in *.
  - now injection H as <-.
  - destruct (stats_step st ev) as [st1|] eqn:Hs; [|discriminate H].
    apply stats_step_counter in Hs. destruct Hs as [_ Hs].
    rewrite <- Hs. now apply IH.
Qed.

(** In range, [int32] arithmetic is arithmetic. *)
Lemma wrap32_int32 z : int32 z -> wrap32 z = z.
Proof.
  unfold int32, wrap32. intros H. rewrite Z.mod_small; lia.
Qed.

(** The errors of StopMS are different texts. *)
Lemma StopCommandError_not_NotOnlineError e : StopCommandError e <> NotOnlineError.
Proof. unfold StopCommandError, NotOnlineError. cbn. discriminate. Qed.

Lemma PendingRequestsError_not_NotOnlineError n : PendingRequestsError n <> NotOnlineError.
Proof. unfold PendingRequestsError, NotOnlineError. cbn. discriminate. Qed.

Lemma StopCommandError_not_ServerNotEmptyError e :
  StopCommandError e <> ServerNotEmptyError.
Proof. unfold StopCommandError, ServerNotEmptyError. cbn. discriminate. Qed.

Lemma PendingRequestsError_not_ServerNotEmptyError n :
  PendingRequestsError n <> ServerNotEmptyError.
Proof. unfold PendingRequestsError, ServerNotEmptyError. cbn. discriminate. Qed.


(** ** StopMS with playersCheck *)

(** What [Stats] forces on the answers of a run of StopMS(true) that got
    past the gate: the decrement answers with the counter minus one, and
    the load, if the run gets there, reads that same value. *)
Lemma checked_run_counter c c' k s tr :
  counter_run c (waits k ++ EvStatus s :: EvStatus "online" :: tr) = Some c' ->
  counter_run c tr = Some c'.
Proof. rewrite counter_run_app, counter_run_waits. cbn. auto. Qed.




Lemma forallb_waits (f : Event -> bool) k :
  f (EvStatus "starting") = true -> f (EvSleep (1 * Second)) = true -> f EvTau = true ->
  forallb f (waits k) = true.
Proof. intros H1 H2 H3. induction k; cbn [waits forallb]; rewrite ?H1, ?H2, ?H3; auto. Qed.


Lemma sum_delta_app tr1 tr2 : sum_delta (tr1 ++ tr2) = sum_delta tr1 + sum_delta tr2.
Proof.
  unfold sum_delta. induction tr1 as [|ev tr1 IH]; cbn [fold_right app]; lia.
Qed.

Lemma sum_delta_waits k : sum_delta (waits k) = 0.
Proof. unfold sum_delta. induction k; cbn [fold_right waits delta_of]; lia. Qed.


(** C5. Every call of StopMS first polls while Status is "starting", and
    nothing but reads of Status and sleeps happens in that wait; when the
    wait is over and Status is not "online", the call returns
    NotOnlineError having issued no stop command and no decrement. *)
Theorem StopMS_waits_then_gate playersCheck :
  (forall tr o,
      outcome (StopMS playersCheck) tr = Some o ->
      (still_waiting tr /\ o = None /\ forallb quiet tr = true) \/
      (exists k s rest,
          s <> "starting" /\ tr = waits k ++ EvStatus s :: rest /\
          ((rest = [] /\ o = None) \/
           (exists s' rest',
               rest = EvStatus s' :: rest' /\
               (s' <> "online" ->
                rest' = [] /\ o = Some (Some NotOnlineError) /\
                forallb quiet tr = true))))) /\
  (forall k s s',
      s <> "starting" -> s' <> "online" ->
      outcome (StopMS playersCheck) (waits k ++ [EvStatus s; EvStatus s'])
      = Some (Some (Some NotOnlineError))).
Proof.
  split.
  - intros tr o H. unfold StopMS in H. apply wait_inv in H.
    destruct H as [[Hw ->]|(k & s & rest & Hs & -> & H)].
    + left. split; [exact Hw|]. split; [reflexivity|].
      destruct Hw as [k [ -> | [ -> | -> ] ] ]; rewrite ?forallb_app, ?forallb_waits;
        reflexivity.
    + right. exists k, s, rest. split; [exact Hs|]. split; [reflexivity|].
      unfold afterWait in H. next_event H as s'.
      { left. split; [reflexivity|]. now injection H as <-. }
      right. exists s', tr. split; [reflexivity|]. intros Hs'.
      destruct (String.eqb_spec s' "online"); [contradiction|]. cbn [negb] in H.
      rewrite outcome_Ret in H. destruct tr; [|discriminate H].
      injection H as <-. split; [reflexivity|]. split; [reflexivity|].
      rewrite forallb_app, forallb_waits; reflexivity.
  - intros k s s' Hs Hs'. apply StopMS_runs. constructor; [exact Hs|].
    now apply gate_not_online.
Qed.


(** C7. When StopMS(true) returns ServerNotEmptyError, the counter has
    gone down by one, in [int32], and stays there: the run holds one
    decrement and nothing else that changes the counter, and it arms no
    timer. *)
Theorem StopMS_not_empty_consumes_request st steps st' :
  stats_run st steps = Some st' ->
  outcome (StopMS true) (performed steps) = Some (Some (Some ServerNotEmptyError)) ->
  StopMSRequests st' = wrap32 (StopMSRequests st - 1) /\
  (int32 (StopMSRequests st - 1) -> StopMSRequests st' = StopMSRequests st - 1) /\
  sum_delta (performed steps) = -1 /\
  forallb (fun ev => negb (is_AfterFunc ev)) (performed steps) = true.
Proof.
  intros Hst Hrun. apply stats_run_counter in Hst.
  apply StopMS_runs in Hrun. remember (performed steps) as tr0 eqn:Htr. clear Htr.
  remember (Some ServerNotEmptyError) as r eqn:Hr.
  destruct Hrun as [k s tr r Hs Hg].
  destruct Hg as [s' Hs'|tr r _ Hc|tr r [=] _]; [discriminate Hr|].
  apply checked_run_counter in Hst.
  rewrite sum_delta_app, sum_delta_waits, forallb_app, forallb_waits by reflexivity.
  destruct Hc as [new n b Hn|new n b p m Hn Hp|new n b p tr r Hn Hp Hstop].
  - cbn in Hst. destruct (Z.eq_dec new (wrap32 (StopMSRequests st + -1))) as [->|];
      [|discriminate Hst].
    injection Hst as <-. split; [reflexivity|]. split; [|auto].
    intros Hr32. change (StopMSRequests st + -1) with (StopMSRequests st - 1).
    now apply wrap32_int32.
  - exfalso. apply (@PendingRequestsError_not_ServerNotEmptyError m). congruence.
  - destruct Hstop as [out e|out].
    + exfalso. apply (@StopCommandError_not_ServerNotEmptyError e). congruence.
    + discriminate Hr.
Qed.



(** ** StopMSRequest *)

(** C8. StopMSRequest adds one to the counter and arms one timer, for the
    configured idle timeout, that runs its func literal; the func literal
    calls StopMS(true), logs nothing for NotOnlineError and logs every
    other error, and the other errors of StopMS are other texts; both
    return nothing. *)
Theorem StopMSRequest_counts_and_schedules :
  (forall tr,
      outcome StopMSRequest tr = Some (Some tt) <->
      exists new, tr = [EvAddInt32 1 new; EvAfterFunc idleTimeout G_func1]) /\
  (forall st steps st',
      stats_run st steps = Some st' ->
      outcome StopMSRequest (performed steps) = Some (Some tt) ->
      StopMSRequests st' = wrap32 (StopMSRequests st + 1) /\
      (int32 (StopMSRequests st + 1) -> StopMSRequests st' = StopMSRequests st + 1)) /\
  body G_func1 = StopMSRequest_func1 /\
  (forall tr,
      outcome StopMSRequest_func1 tr = Some (Some tt) <->
      exists tr0 err,
        outcome (StopMS true) tr0 = Some (Some err) /\ tr = tr0 ++ func1_log err) /\
  func1_log None = [] /\
  func1_log (Some NotOnlineError) = [] /\
  (forall e,
      e <> NotOnlineError ->
      func1_log (Some e) = [EvLogln [AStr "StopMSRequest:"; AErr e]]) /\
  (forall e n,
      ServerNotEmptyError <> NotOnlineError /\
      PendingRequestsError n <> NotOnlineError /\
      StopCommandError e <> NotOnlineError).
Proof.
  split; [exact StopMSRequest_runs|].
  split.
  { intros st steps st' Hst Hrun. apply stats_run_counter in Hst.
    apply StopMSRequest_runs in Hrun. destruct Hrun as [new Hrun].
    rewrite Hrun in Hst. cbn in Hst.
    destruct (Z.eq_dec new (wrap32 (StopMSRequests st + 1))) as [->|];
      [|discriminate Hst].
    injection Hst as <-. split; [reflexivity|]. apply wrap32_int32. }
  split; [reflexivity|].
  split; [exact StopMSRequest_func1_runs|].
  split; [reflexivity|].
  split; [reflexivity|].
  split.
  { intros e He. unfold func1_log.
    destruct (String.eqb_spec e "StopMS: server is not online"); [contradiction|].
    reflexivity. }
  intros e n. split; [discriminate|].
  split; [apply PendingRequestsError_not_NotOnlineError
         |apply StopCommandError_not_NotOnlineError].
Qed.

(** ** The watchdog *)


(** C10. The watchdog reads Status only at the top of a poll, never after
    the countdown is used up: when Status becomes "offline" during the
    sleep of the last poll, or during the buffer wait after the flush, the
    flush and the kill are issued all the same. *)
Theorem watchdog_ignores_late_offline :
  (forall tr,
      outcome killMSifOnlineAfterTimeout tr = Some (Some tt) ->
      exists seen rest,
        tr = polls seen ++ rest /\
        (rest = [EvStatus "offline"] \/
         (length seen = grace /\
          forallb (fun ev => negb (is_Status ev)) rest = true))) /\
  (forall st n out errSave errKill,
      grace = S n ->
      Status st <> "offline" ->
      let s := Status st in
      let during_last_sleep :=
        List.map Do (polls (repeat s n)) ++
        [Do (EvStatus s); Do (EvSleep Second); StoreStatus "offline"; Do EvTau] ++
        List.map Do (flush out errSave ++ kill errKill) in
      let during_buffer_wait :=
        List.map Do (polls (repeat s (S n))) ++
        List.map Do (flush out errSave) ++
        StoreStatus "offline" ::
        List.map Do (kill errKill) in
      forall steps,
        steps = during_last_sleep \/ steps = during_buffer_wait ->
        exists st',
          stats_run st steps = Some st' /\
          Status st' = "offline" /\
          outcome killMSifOnlineAfterTimeout (performed steps) = Some (Some tt) /\
          In (EvExecute "save-all" "killMSifOnlineAfterTimeout" out errSave) (performed steps) /\
          In (EvKill errKill) (performed steps)).
Proof.
  split.
  - intros tr H. apply killMSifOnlineAfterTimeout_runs in H.
    destruct H as [seen Hl Hf|seen out errSave errKill Hl Hf].
    + exists seen. eauto.
    + exists seen. eexists. split; [reflexivity|]. right. split; [exact Hl|].
      destruct errKill; reflexivity.
  - intros st n out errSave errKill Hg Hs s during_last_sleep during_buffer_wait steps Hsteps.
    assert (Hpolls : forall m st0,
               Status st0 = s ->
               stats_run st0 (List.map Do (polls (repeat s m))) = Some st0).
    { induction m as [|m IH]; intros st0 Hst0; [reflexivity|].
      cbn. destruct (string_dec s (Status st0)); [|congruence]. now apply IH. }
    assert (Hrun : forall st0 steps1 steps2 st1,
               stats_run st0 steps1 = Some st1 ->
               stats_run st0 (steps1 ++ steps2) = stats_run st1 steps2).
    { intros st0 steps1. revert st0.
      induction steps1 as [|[ev|s1] steps1 IH]; intros st0 steps2 st1 H; cbn in *.
      - now injection H as <-.
      - destruct (stats_step st0 ev); [|discriminate H]. now apply IH.
      - now apply IH. }
    assert (Hdone : forall steps1 steps2, performed (steps1 ++ steps2) = performed steps1 ++ performed steps2).
    { intros. unfold performed. apply flat_map_app. }
    assert (Hseen : Forall (fun s0 => s0 <> "offline") (repeat s (S n))).
    { apply Forall_forall. intros x Hx. apply repeat_spec in Hx. now subst x. }
    exists {| Status := "offline"; StopMSRequests := StopMSRequests st |}.
    destruct Hsteps as [-> | ->]; subst during_last_sleep during_buffer_wait.
    + split.
      { rewrite (Hrun _ _ _ _ (Hpolls n st eq_refl)). cbn.
        destruct (string_dec s (Status st)) as [_|Hne];
          [|exfalso; apply Hne; reflexivity].
        destruct errKill; reflexivity. }
      split; [reflexivity|].
      assert (Htr : performed (List.map Do (polls (repeat s n)) ++
                          [Do (EvStatus s); Do (EvSleep Second);
                           StoreStatus "offline"; Do EvTau] ++
                          List.map Do (flush out errSave ++ kill errKill))
                    = polls (repeat s (S n)) ++ flush out errSave ++ kill errKill).
      { rewrite !Hdone, !performed_map_Do.
        replace (S n) with (n + 1)%nat by lia. rewrite repeat_app.
        unfold polls at 2. rewrite flat_map_app, <- app_assoc. reflexivity. }
      rewrite Htr. split.
      { apply killMSifOnlineAfterTimeout_runs.
        apply (kill_escalated out errSave errKill); [|exact Hseen].
        rewrite repeat_length. auto. }
      split; apply in_or_app; right; cbn; auto 10.
    + split.
      { rewrite (Hrun _ _ _ _ (Hpolls (S n) st eq_refl)). cbn.
        destruct errKill; reflexivity. }
      split; [reflexivity|].
      assert (Htr : performed (List.map Do (polls (repeat s (S n))) ++
                          List.map Do (flush out errSave) ++
                          StoreStatus "offline" :: List.map Do (kill errKill))
                    = polls (repeat s (S n)) ++ flush out errSave ++ kill errKill).
      { rewrite !Hdone, !performed_map_Do.
        change (StoreStatus "offline" :: List.map Do (kill errKill))
          with ([StoreStatus "offline"] ++ List.map Do (kill errKill)).
        rewrite Hdone, performed_map_Do. reflexivity. }
      rewrite Htr. split.
      { apply killMSifOnlineAfterTimeout_runs.
        apply (kill_escalated out errSave errKill); [|exact Hseen].
        rewrite repeat_length. auto. }
      split; apply in_or_app; right; cbn; auto 10.
Qed.


(** ** Pools *)

Lemma Zsum_app {A : Type} (f : A -> Z) l1 l2 : Zsum f (l1 ++ l2) = Zsum f l1 + Zsum f l2.
Proof. unfold Zsum. induction l1 as [|x l1 IH]; cbn [fold_right app]; lia. Qed.

Lemma Zsum_update {A : Type} (f : A -> Z) l : forall i x y,
  nth_error l i = Some x ->
  Zsum f (update l i y) = Zsum f l - f x + f y.
Proof.
  unfold Zsum. induction l as [|z l IH]; intros [|i] x y H; try discriminate H.
  - injection H as ->. cbn [update fold_right]. lia.
  - cbn [update fold_right]. cbn [nth_error] in H. rewrite (IH _ _ y H). lia.
Qed.

Lemma Forall_update {A : Type} (P : A -> Prop) l : forall i y,
  Forall P l -> P y -> Forall P (update l i y).
Proof.
  induction l as [|z l IH]; intros [|i] y Hl Hy; cbn [update]; auto;
    inversion Hl; subst; constructor; auto.
Qed.

Lemma length_remove_nth {A : Type} (l : list A) : forall j x,
  nth_error l j = Some x ->
  Z.of_nat (length (remove_nth l j)) = Z.of_nat (length l) - 1.
Proof.
  induction l as [|z l IH]; intros [|j] x H; try discriminate H.
  - cbn [remove_nth length]. lia.
  - cbn [remove_nth length]. cbn [nth_error] in H. rewrite !Nat2Z.inj_succ.
    rewrite (IH _ _ H). lia.
Qed.

Lemma Forall_remove_nth {A : Type} (P : A -> Prop) l : forall j,
  Forall P l -> Forall P (remove_nth l j).
Proof.
  induction l as [|z l IH]; intros [|j] Hl; cbn [remove_nth]; auto;
    inversion Hl; subst; auto.
Qed.

Lemma thread_run_snoc {R : Type} tr : forall (t : itree msE R) ev,
  thread_run t (tr ++ [ev]) =
  match thread_run t tr with Some t' => thread_step t' ev | None => None end.
Proof.
  induction tr as [|ev0 tr IH]; intros t ev; cbn [app thread_run].
  - destruct (thread_step t ev); reflexivity.
  - destruct (thread_step t ev0); auto.
Qed.

Lemma wrap32_add a d : wrap32 (wrap32 a + d) = wrap32 (a + d).
Proof.
  unfold wrap32. f_equal.
  replace ((a + 2 ^ 31) mod 2 ^ 32 - 2 ^ 31 + d + 2 ^ 31)
    with ((a + 2 ^ 31) mod 2 ^ 32 + d) by lia.
  replace (a + d + 2 ^ 31) with (a + 2 ^ 31 + d) by lia.
  rewrite Zplus_mod_idemp_l. reflexivity.
Qed.

Lemma stats_step_total st ev st' total :
  stats_step st ev = Some st' ->
  StopMSRequests st = wrap32 total ->
  StopMSRequests st' = wrap32 (total + delta_of ev).
Proof.
  intros H Hc. destruct ev; cbn in H |- *;
    try (injection H as <-; now rewrite Z.add_0_r).
  - destruct (string_dec s (Status st)); [|discriminate H].
    injection H as <-. now rewrite Z.add_0_r.
  - destruct (Z.eq_dec new (wrap32 (StopMSRequests st + delta))) as [->|];
      [|discriminate H].
    injection H as <-. cbn. rewrite Hc. apply wrap32_add.
  - destruct (Z.eq_dec v (StopMSRequests st)); [|discriminate H].
    injection H as <-. now rewrite Z.add_0_r.
  - destruct (Z.eq_dec v (StopMSRequests st)); [|discriminate H].
    injection H as <-. now rewrite Z.add_0_r.
Qed.

Lemma pool_step_Run p i ev p' :
  pool_step p (Run i ev) = Some p' ->
  exists th t' st',
    nth_error (threads p) i = Some th /\
    thread_step (code th) ev = Some t' /\
    stats_step (stats p) ev = Some st' /\
    p' = {| stats := st';
            threads :=
              update (threads p) i
                     {| kind := kind th; code := t'; hist := hist th ++ [ev] |}
              ++ spawned ev;
            timers := timers p ++ armed ev |}.
Proof.
  cbn [pool_step]. destruct (nth_error (threads p) i) as [th|]; [|discriminate].
  destruct (thread_step (code th) ev) as [t'|] eqn:Ht; [|discriminate].
  destruct (stats_step (stats p) ev) as [st'|] eqn:Hst; [|discriminate].
  intros [= <-]. exists th, t', st'. auto.
Qed.

Lemma pool_step_Fire p j p' :
  pool_step p (Fire j) = Some p' ->
  exists d g,
    nth_error (timers p) j = Some (d, g) /\
    p' = {| stats := stats p;
            threads := threads p ++ [spawn g];
            timers := remove_nth (timers p) j |}.
Proof.
  cbn. destruct (nth_error (timers p) j) as [[d g]|]; [|discriminate].
  intros [= <-]. exists d, g. split; reflexivity.
Qed.

Lemma spawned_wf ev :
  Forall (fun th => thread_run (body (kind th)) (hist th) = Some (code th)) (spawned ev).
Proof. destruct ev; cbn; auto. Qed.

Lemma pool_step_wf p a p' :
  pool_wf p -> pool_step p a = Some p' -> pool_wf p'.
Proof.
  unfold pool_wf. intros Hwf H. destruct a as [i ev|j|s].
  - apply pool_step_Run in H. destruct H as (th & t' & st' & Hth & Ht & _ & ->).
    cbn [threads]. apply Forall_app. split; [|apply spawned_wf].
    apply Forall_update; [exact Hwf|]. cbn [kind code hist].
    rewrite thread_run_snoc.
    rewrite Forall_forall in Hwf. rewrite (Hwf th); [exact Ht|].
    eapply nth_error_In; eauto.
  - apply pool_step_Fire in H. destruct H as (d & g & _ & ->).
    cbn [threads]. apply Forall_app. split; [exact Hwf|]. constructor; auto.
  - cbn in H. injection H as <-. exact Hwf.
Qed.

(** Whatever a goroutine in a pool has performed, its body permits. *)
Lemma thread_permitted th :
  thread_run (body (kind th)) (hist th) = Some (code th) ->
  Forall (permitted (is_watchdog (kind th))) (hist th).
Proof.
  intros H. apply (@body_permitted _ _ (result (code th))).
  unfold outcome. now rewrite H.
Qed.

(** The event a goroutine performs in a step is one its body permits. *)
Lemma step_permitted p i ev th t' :
  pool_wf p ->
  nth_error (threads p) i = Some th ->
  thread_step (code th) ev = Some t' ->
  permitted (is_watchdog (kind th)) ev.
Proof.
  intros Hwf Hth Ht.
  assert (H : Forall (permitted (is_watchdog (kind th))) (hist th ++ [ev])).
  { apply (@thread_permitted {| kind := kind th; code := t'; hist := hist th ++ [ev] |}).
    cbn [kind code hist]. rewrite thread_run_snoc.
    unfold pool_wf in Hwf. rewrite Forall_forall in Hwf.
    rewrite (Hwf th); [exact Ht|]. eapply nth_error_In; eauto. }
  apply Forall_app in H. destruct H as [_ H]. now inversion H.
Qed.


(** ** The pool of StopMSRequest calls *)

Lemma armed_by_app tr1 tr2 : armed_by (tr1 ++ tr2) = armed_by tr1 + armed_by tr2.
Proof. apply Zsum_app. Qed.

Lemma spawned_delta ev : Zsum (fun th => sum_delta (hist th)) (spawned ev) = 0.
Proof. destruct ev; reflexivity. Qed.

Lemma spawned_armed ev : Zsum (fun th => armed_by (hist th)) (spawned ev) = 0.
Proof. destruct ev; reflexivity. Qed.

Lemma spawned_callbacks w ev :
  permitted w ev ->
  Zsum (fun th => if is_func1 (kind th) then 1 else 0) (spawned ev) = 0.
Proof. destruct ev; try reflexivity. cbn. intros (-> & _). reflexivity. Qed.

Lemma spawned_kinds w ev :
  permitted w ev ->
  Forall (fun th => kind th = G_StopMSRequest \/ kind th = G_func1 \/
                    kind th = G_killMSifOnlineAfterTimeout) (spawned ev).
Proof. destruct ev; cbn; auto. intros (-> & _). auto. Qed.

Lemma armed_length ev :
  Z.of_nat (length (armed ev)) = armed_by [ev].
Proof. destruct ev; reflexivity. Qed.

Lemma armed_func1 w ev :
  permitted w ev -> Forall (fun t => snd t = G_func1) (armed ev).
Proof. destruct ev; cbn; auto. intros (-> & _). auto. Qed.

Lemma requests_inv_step p a p' :
  requests_inv p -> pool_step p a = Some p' -> requests_inv p'.
Proof.
  intros (Hwf & Hc & Ha & Ht & Hk) H.
  split; [eapply pool_step_wf; eauto|].
  unfold total_delta, total_armed, callbacks in *.
  destruct a as [i ev|j|s].
  - apply pool_step_Run in H. destruct H as (th & t' & st' & Hth & Hstep & Hst & ->).
    pose proof (step_permitted _ _ Hwf Hth Hstep) as Hp.
    assert (Hkind : kind th = G_StopMSRequest \/ kind th = G_func1 \/
                    kind th = G_killMSifOnlineAfterTimeout).
    { rewrite Forall_forall in Hk. apply Hk. eapply nth_error_In; eauto. }
    cbn [stats threads timers].
    rewrite !Zsum_app, !(Zsum_update _ _ _ _ Hth). cbn [hist kind].
    rewrite sum_delta_app, armed_by_app, spawned_delta, spawned_armed,
      (spawned_callbacks _ _ Hp), length_app, Nat2Z.inj_add, armed_length.
    split.
    { replace (Zsum (fun th0 => sum_delta (hist th0)) (threads p) - sum_delta (hist th) +
               (sum_delta (hist th) + sum_delta [ev]) + 0)
        with (Zsum (fun th0 => sum_delta (hist th0)) (threads p) + delta_of ev)
        by (unfold sum_delta; cbn [fold_right]; lia).
      eapply stats_step_total; eauto. }
    split; [lia|].
    split.
    { apply Forall_app. split; [exact Ht|]. eapply armed_func1; eauto. }
    apply Forall_app. split; [|eapply spawned_kinds; eauto].
    apply Forall_update; auto.
  - apply pool_step_Fire in H. destruct H as (d & g & Hj & ->).
    cbn [stats threads timers].
    assert (Hg : g = G_func1).
    { rewrite Forall_forall in Ht. apply (Ht (d, g)). eapply nth_error_In; eauto. }
    subst g. rewrite !Zsum_app, (length_remove_nth _ _ Hj). cbn [Zsum fold_right spawn hist kind is_func1].
    split; [rewrite Hc; f_equal; unfold sum_delta; cbn; lia|].
    split; [unfold armed_by, Zsum in *; cbn [fold_right]; lia|].
    split; [now apply Forall_remove_nth|].
    apply Forall_app. split; [exact Hk|]. constructor; auto.
  - cbn in H. injection H as <-. cbn [stats threads timers StopMSRequests]. auto.
Qed.

Lemma requests_inv_run sched : forall p p',
  requests_inv p -> pool_run p sched = Some p' -> requests_inv p'.
Proof.
  induction sched as [|a sched IH]; intros p p' Hinv H; cbn in H.
  - now injection H as <-.
  - destruct (pool_step p a) as [p1|] eqn:Hs; [|discriminate H].
    eapply IH; [|exact H]. eapply requests_inv_step; eauto.
Qed.

Lemma requests_inv_start s0 n :
  requests_inv (start {| Status := s0; StopMSRequests := 0 |} (repeat G_StopMSRequest n)).
Proof.
  unfold requests_inv, pool_wf, total_delta, total_armed, callbacks, start.
  cbn [stats threads timers StopMSRequests length].
  induction n as [|n (IH1 & IH2 & IH3 & IH4 & IH5)]; cbn [repeat List.map].
  - repeat split; auto.
  - split; [constructor; auto|].
    split; [exact IH2|].
    split; [exact IH3|].
    split; [constructor|].
    constructor; auto.
Qed.


Lemma requesters_step p a p' :
  requests_inv p -> pool_step p a = Some p' -> requesters p' = requesters p.
Proof.
  intros (Hwf & _ & _ & Ht & _) H. unfold requesters.
  destruct a as [i ev|j|s].
  - apply pool_step_Run in H. destruct H as (th & t' & st' & Hth & Hstep & Hst & ->).
    pose proof (step_permitted _ _ Hwf Hth Hstep) as Hp.
    cbn [threads]. rewrite Zsum_app, (Zsum_update _ _ _ _ Hth). cbn [kind].
    assert (Hs : Zsum (fun th0 => if is_request (kind th0) then 1 else 0) (spawned ev) = 0).
    { destruct ev; try reflexivity. cbn in Hp. destruct Hp as (-> & _). reflexivity. }
    lia.
  - apply pool_step_Fire in H. destruct H as (d & g & Hj & ->).
    assert (Hg : g = G_func1).
    { rewrite Forall_forall in Ht. apply (Ht (d, g)). eapply nth_error_In; eauto. }
    subst g. cbn [threads]. rewrite Zsum_app. cbn. lia.
  - cbn in H. now injection H as <-.
Qed.

Lemma requesters_run sched : forall p p',
  requests_inv p -> pool_run p sched = Some p' -> requesters p' = requesters p.
Proof.
  induction sched as [|a sched IH]; intros p p' Hinv H; cbn in H.
  - now injection H as <-.
  - destruct (pool_step p a) as [p1|] eqn:Hs; [|discriminate H].
    rewrite (IH p1 p'); [|eapply requests_inv_step; eauto|exact H].
    eapply requesters_step; eauto.
Qed.

Lemma requesters_start st n : requesters (start st (repeat G_StopMSRequest n)) = Z.of_nat n.
Proof.
  unfold requesters, start. cbn [threads].
  induction n as [|n IH]; [reflexivity|].
  cbn [repeat List.map]. unfold Zsum in *. cbn [fold_right spawn kind is_request].
  rewrite IH. lia.
Qed.

(** What a watchdog does leaves the counter and the timers alone. *)
Lemma watchdog_account tr :
  Forall (permitted true) tr -> sum_delta tr = 0 /\ armed_by tr = 0.
Proof.
  unfold sum_delta, armed_by, Zsum.
  induction 1 as [|ev tr Hev _ [IH1 IH2]]; [auto|].
  cbn [fold_right]. rewrite IH1, IH2.
  destruct ev; cbn in Hev |- *; auto; try discriminate Hev.
  destruct Hev as [_ [=]].
Qed.

Lemma last_status_after tr1 s tr2 :
  forallb (fun ev => negb (is_Status ev)) tr2 = true ->
  last_status (tr1 ++ EvStatus s :: tr2) = Some s.
Proof.
  unfold last_status. rewrite fold_left_app. cbn [fold_left].
  generalize (fold_left
                (fun acc ev => match ev with EvStatus s0 => Some s0 | _ => acc end)
                tr1 None).
  intros _. induction tr2 as [|ev tr2 IH]; intros H; [reflexivity|].
  cbn [forallb] in H. apply andb_prop in H. destruct H as [Hev H].
  destruct ev; try discriminate Hev; cbn [fold_left]; auto.
Qed.

Lemma func1_log_account err :
  sum_delta (func1_log err) = 0 /\ armed_by (func1_log err) = 0 /\
  forallb (fun ev => negb (is_Status ev)) (func1_log err) = true.
Proof.
  unfold func1_log. destruct err as [e|]; [|auto].
  destruct (negb (e =? "StopMS: server is not online")%string); auto.
Qed.

(** The books of a finished run of StopMS(true): one off the counter when
    the gate let it through, nothing when it did not; no timer either way. *)
Lemma checked_account tr err :
  StopMS_run true tr err ->
  exists tr1 s tr2,
    tr ++ func1_log err = tr1 ++ EvStatus s :: tr2 /\
    forallb (fun ev => negb (is_Status ev)) tr2 = true /\
    armed_by tr = 0 /\
    sum_delta tr = if (s =? "online")%string then -1 else 0.
Proof.
  intros [k s0 tr' r' Hs Hg].
  assert (Hw : armed_by (waits k) = 0).
  { unfold armed_by, Zsum. induction k; cbn [waits fold_right is_AfterFunc]; lia. }
  destruct (func1_log_account r') as (_ & _ & Hlog).
  rewrite sum_delta_app, armed_by_app, sum_delta_waits, Hw.
  destruct Hg as [s' Hs'|tr1 r1 _ Hc|tr1 r1 [=] _].
  - exists (waits k ++ [EvStatus s0]), s', [].
    rewrite <- !app_assoc. cbn [app func1_log String.eqb Ascii.eqb Bool.eqb andb negb].
    destruct (String.eqb_spec s' "online"); [contradiction|]. auto.
  - exists (waits k ++ [EvStatus s0]), "online", (tr1 ++ func1_log r1).
    rewrite <- !app_assoc. cbn [app]. split; [reflexivity|].
    rewrite forallb_app, Hlog, andb_true_r.
    destruct Hc as [new n b Hn|new n b p m Hn Hp|new n b p tr2 r2 Hn Hp Hstop];
      try (repeat split; reflexivity).
    destruct Hstop as [out e|out]; [repeat split; reflexivity|].
    unfold arm. destruct (Commands_StopServerAllowKill ConfigRuntime >? 0);
      repeat split; reflexivity.
Qed.

(** The books of one goroutine of the pool of requests, once it has returned. *)
Lemma thread_account th :
  thread_run (body (kind th)) (hist th) = Some (code th) ->
  kind th = G_StopMSRequest \/ kind th = G_func1 \/
  kind th = G_killMSifOnlineAfterTimeout ->
  (is_watchdog (kind th) = false -> result (code th) = Some tt) ->
  sum_delta (hist th) + (if is_func1 (kind th) then 1 else 0)
  = armed_by (hist th) + (if refused th then 1 else 0) /\
  armed_by (hist th) = if is_request (kind th) then 1 else 0.
Proof.
  intros Hwf Hk Hdone. unfold refused.
  assert (Hout : outcome (body (kind th)) (hist th) = Some (result (code th))).
  { unfold outcome. now rewrite Hwf. }
  destruct Hk as [Hk|[Hk|Hk]]; rewrite Hk in *;
    cbn [is_func1 is_request body andb] in *.
  - rewrite Hdone in Hout by reflexivity.
    apply StopMSRequest_runs in Hout. destruct Hout as [new ->]. auto.
  - rewrite Hdone in Hout by reflexivity.
    apply StopMSRequest_func1_runs in Hout. destruct Hout as (tr0 & err & Hrun & Hh).
    apply StopMS_runs in Hrun.
    destruct (checked_account Hrun) as (tr1 & s & tr2 & Heq & Hns & Ha & Hd).
    destruct (func1_log_account err) as (H3 & H4 & _).
    rewrite Hh, sum_delta_app, armed_by_app, H3, H4, Ha, Hd, Heq,
      (last_status_after _ _ _ Hns).
    destruct (s =? "online")%string; auto.
  - apply killMSifOnlineAfterTimeout_permitted in Hout.
    apply watchdog_account in Hout. destruct Hout as [-> ->]. auto.
Qed.

(** C2, as far as the code goes.  Take any number of StopMSRequest calls
    and run them, their timers and whatever they start in any order.
    When every call has returned, every timer has fired and every func
    literal has returned, there were as many func literals as calls, and
    the counter holds one for each of them that found Status other than
    "online" at the gate of StopMS; it is back at 0 when none did. *)
Theorem pending_requests_drain n s0 sched p' :
  pool_run (start {| Status := s0; StopMSRequests := 0 |} (repeat G_StopMSRequest n))
           sched = Some p' ->
  timers p' = [] ->
  (forall th, In th (threads p') ->
              is_watchdog (kind th) = false -> result (code th) = Some tt) ->
  callbacks p' = Z.of_nat n /\
  StopMSRequests (stats p') = wrap32 (refusals p') /\
  ((forall th, In th (threads p') -> refused th = false) ->
   StopMSRequests (stats p') = 0).
Proof.
  intros Hrun Htimers Hdone.
  pose proof (requesters_run _ (requests_inv_start s0 n) Hrun) as Hreq.
  rewrite requesters_start in Hreq.
  apply (requests_inv_run _ (requests_inv_start s0 n)) in Hrun.
  destruct Hrun as (Hwf & Hc & Ha & _ & Hk).
  rewrite Htimers in Ha. cbn [length] in Ha.
  unfold total_delta, total_armed, callbacks, requesters, refusals, pool_wf in *.
  assert (Hsum : Zsum (fun th => sum_delta (hist th)) (threads p') +
                 Zsum (fun th => if is_func1 (kind th) then 1 else 0) (threads p')
                 = Zsum (fun th => armed_by (hist th)) (threads p') +
                   Zsum (fun th => if refused th then 1 else 0) (threads p') /\
                 Zsum (fun th => armed_by (hist th)) (threads p')
                 = Zsum (fun th => if is_request (kind th) then 1 else 0) (threads p')).
  { clear Hc Ha Hreq Htimers.
    induction (threads p') as [|th ths IH]; [auto|].
    inversion Hwf; subst. inversion Hk; subst.
    destruct IH as [IH1 IH2]; auto.
    { intros; apply Hdone; cbn; auto. }
    destruct (@thread_account th) as [Ht1 Ht2]; auto.
    { apply Hdone. cbn; auto. }
    unfold Zsum in *. cbn [fold_right]. lia. }
  destruct Hsum as [Hs1 Hs2].
  split; [lia|].
  assert (Hcount : StopMSRequests (stats p')
                   = wrap32 (Zsum (fun th => if refused th then 1 else 0) (threads p'))).
  { rewrite Hc. f_equal. lia. }
  split; [exact Hcount|].
  intros Hnone. rewrite Hcount.
  replace (Zsum (fun th => if refused th then 1 else 0) (threads p')) with 0;
    [reflexivity|].
  clear - Hnone. induction (threads p') as [|th ths IH]; [reflexivity|].
  unfold Zsum in *. cbn [fold_right]. rewrite (Hnone th) by (cbn; auto).
  rewrite <- IH; [reflexivity|]. intros; apply Hnone; cbn; auto.
Qed.

(** ** No kill without grace period *)

Lemma permitted_harmless ev :
  Commands_StopServerAllowKill ConfigRuntime = 0 ->
  permitted false ev -> harmless ev = true.
Proof.
  intros H0. destruct ev; cbn; auto.
  intros (_ & Hgt & _). lia.
Qed.

Lemma harmless_spawns_nothing ev : harmless ev = true -> spawned ev = [].
Proof. destruct ev; cbn; auto; discriminate. Qed.

Lemma no_watchdog_step p a p' :
  Commands_StopServerAllowKill ConfigRuntime = 0 ->
  no_watchdog_inv p -> pool_step p a = Some p' ->
  no_watchdog_inv p' /\ forallb harmless (events_of [a]) = true.
Proof.
  intros H0 (Hwf & Hths & Htms) H.
  split; [split; [eapply pool_step_wf; eauto|]|].
  - destruct a as [i ev|j|s].
    + apply pool_step_Run in H. destruct H as (th & t' & st' & Hth & Hstep & _ & ->).
      assert (Hw : is_watchdog (kind th) = false).
      { rewrite Forall_forall in Hths. apply Hths. eapply nth_error_In; eauto. }
      pose proof (step_permitted _ _ Hwf Hth Hstep) as Hp. rewrite Hw in Hp.
      cbn [threads timers]. rewrite (harmless_spawns_nothing _ (permitted_harmless _ H0 Hp)).
      rewrite app_nil_r. split; [apply Forall_update; auto|].
      apply Forall_app. split; [exact Htms|].
      destruct ev; cbn; auto. cbn in Hp. destruct Hp as (-> & _). auto.
    + apply pool_step_Fire in H. destruct H as (d & g & Hj & ->).
      cbn [threads timers]. split; [|now apply Forall_remove_nth].
      apply Forall_app. split; [exact Hths|]. constructor; [|constructor].
      rewrite Forall_forall in Htms. apply (Htms (d, g)). eapply nth_error_In; eauto.
    + cbn in H. injection H as <-. auto.
  - destruct a as [i ev|j|s]; try reflexivity.
    apply pool_step_Run in H. destruct H as (th & t' & st' & Hth & Hstep & _ & ->).
    assert (Hw : is_watchdog (kind th) = false).
    { rewrite Forall_forall in Hths. apply Hths. eapply nth_error_In; eauto. }
    pose proof (step_permitted _ _ Hwf Hth Hstep) as Hp. rewrite Hw in Hp.
    cbn. now rewrite (permitted_harmless _ H0 Hp).
Qed.

Lemma no_watchdog_run sched :
  Commands_StopServerAllowKill ConfigRuntime = 0 ->
  forall p p',
    no_watchdog_inv p -> pool_run p sched = Some p' ->
    no_watchdog_inv p' /\ forallb harmless (events_of sched) = true.
Proof.
  intros H0. induction sched as [|a sched IH]; intros p p' Hinv H; cbn [pool_run] in H.
  - injection H as <-. auto.
  - destruct (pool_step p a) as [p1|] eqn:Hs; [|discriminate H].
    destruct (no_watchdog_step _ H0 Hinv Hs) as [Hinv1 Ha].
    destruct (IH _ _ Hinv1 H) as [Hinv' Hsched].
    split; [exact Hinv'|].
    change (a :: sched) with ([a] ++ sched).
    unfold events_of in *. rewrite flat_map_app, forallb_app, Ha, Hsched. reflexivity.
Qed.

(** C4. With a grace period of 0, no call of StopMS starts the watchdog,
    and however the goroutines of this package are run, none of them
    starts one or sends the kill. *)
Theorem no_kill_without_grace :
  Commands_StopServerAllowKill ConfigRuntime = 0 ->
  (forall playersCheck tr o,
      outcome (StopMS playersCheck) tr = Some o -> forallb harmless tr = true) /\
  (forall st gs sched p',
      forallb (fun g => negb (is_watchdog g)) gs = true ->
      pool_run (start st gs) sched = Some p' ->
      forallb harmless (events_of sched) = true /\
      forallb (fun th => negb (is_watchdog (kind th))) (threads p') = true).
Proof.
  intros H0. split.
  - intros playersCheck tr o H. apply StopMS_permitted in H.
    apply forallb_forall. intros ev Hev. rewrite Forall_forall in H.
    now apply permitted_harmless, H.
  - intros st gs sched p' Hgs Hrun.
    assert (Hinv : no_watchdog_inv (start st gs)).
    { unfold no_watchdog_inv, pool_wf, start. cbn [threads timers].
      split; [|split; [|constructor]].
      - apply Forall_forall. intros th Hth. apply in_map_iff in Hth.
        destruct Hth as (g & <- & _). reflexivity.
      - apply Forall_forall. intros th Hth. apply in_map_iff in Hth.
        destruct Hth as (g & <- & Hg). rewrite forallb_forall in Hgs.
        apply Hgs in Hg. cbn [spawn kind]. now destruct (is_watchdog g). }
    destruct (no_watchdog_run _ H0 Hinv Hrun) as [(_ & Hths & _) Hev].
    split; [exact Hev|].
    apply forallb_forall. intros th Hth. rewrite Forall_forall in Hths.
    now rewrite (Hths th Hth).
Qed.

(** ** StartMS *)

(** X1. StartMS is one call of [cmdStart] on the folder and the start command
    of the configuration and nothing else: it reads neither Status nor the
    counter, whatever state the server is in, and it returns the error of
    [cmdStart], wrapped, or nil when there is none. *)
Theorem StartMS_runs_cmdStart_only tr r :
  outcome StartMS tr = Some (Some r) <->
  exists err,
    tr = [EvCmdStart (Server_Folder ConfigRuntime) (Commands_StartServer ConfigRuntime) err] /\
    r = option_map StartError err.
Proof.
  unfold StartMS. split.
  - intros H. next_event' H as err. exists err.
    destruct err as [e|]; returned H; auto.
  - intros (err & -> & ->). play. destruct err; play; reflexivity.
Qed.

(** ** More on StopMS *)

Lemma filter_waits (f : Event -> bool) k :
  f (EvStatus "starting") = false -> f (EvSleep (1 * Second)) = false -> f EvTau = false ->
  filter f (waits k) = [].
Proof. intros H1 H2 H3. induction k; cbn [waits filter]; rewrite ?H1, ?H2, ?H3; auto. Qed.

Lemma count_app f tr1 tr2 : count f (tr1 ++ tr2) = (count f tr1 + count f tr2)%nat.
Proof. unfold count. now rewrite filter_app, length_app. Qed.

Lemma count_waits (f : Event -> bool) k :
  f (EvStatus "starting") = false -> f (EvSleep (1 * Second)) = false -> f EvTau = false ->
  count f (waits k) = 0%nat.
Proof. intros. unfold count. now rewrite filter_waits. Qed.

Lemma slept_app tr1 tr2 : slept (tr1 ++ tr2) = slept tr1 + slept tr2.
Proof. apply Zsum_app. Qed.

Lemma slept_waits k : slept (waits k) = Z.of_nat k * Second.
Proof.
  unfold slept, Zsum. induction k as [|k IH]; [reflexivity|].
  cbn [waits fold_right]. fold (Zsum (fun ev => match ev with EvSleep d => d | _ => 0 end)).
  unfold Zsum. rewrite IH. lia.
Qed.

(** X2. StopMS has no time limit of its own: as long as Status reads
    "starting" it polls once a second, however often, and does not return. *)
Theorem StopMS_waits_without_limit playersCheck k :
  outcome (StopMS playersCheck) (waits k) = Some None /\
  slept (waits k) = Z.of_nat k * Second /\
  count is_Status (waits k) = k.
Proof.
  split; [|split; [apply slept_waits|]].
  - unfold StopMS. rewrite <- (app_nil_r (waits k)), wait_waits.
    rewrite unfold_iter. unfold waitStarting at 1. rewrite !bind_bind.
    rewrite outcome_trigger_bind. reflexivity.
  - unfold count. induction k as [|k IH]; [reflexivity|].
    cbn [waits filter is_Status length]. now rewrite IH.
Qed.

(** X3. A finished call of StopMS has sent at most one command, the stop
    command; it returns nil exactly when that command was delivered, and it
    has started a watchdog exactly when it returns nil and the
    configuration allows the kill. *)
Theorem StopMS_nil_iff_stop_delivered playersCheck tr r :
  outcome (StopMS playersCheck) tr = Some (Some r) ->
  (r = None <-> exists out, filter is_Execute tr = [stopCommand out None]) /\
  (filter is_Execute tr = [] \/
   exists out errExec, filter is_Execute tr = [stopCommand out errExec]) /\
  count is_Go tr =
    match r with
    | None => if Commands_StopServerAllowKill ConfigRuntime >? 0 then 1%nat else 0%nat
    | Some _ => 0%nat
    end.
Proof.
  intros H. apply StopMS_runs in H. destruct H as [k s tr' r' Hs Hg].
  unfold count. rewrite !filter_app, !filter_waits by reflexivity.
  cbn [app filter is_Execute is_Go].
  assert (Hstop : forall pre,
            filter is_Execute pre = [] -> filter is_Go pre = [] ->
            forall rest r0, stop_part rest r0 ->
            (r0 = None <->
             exists out, filter is_Execute (pre ++ rest) = [stopCommand out None]) /\
            (filter is_Execute (pre ++ rest) = [] \/
             exists out errExec,
               filter is_Execute (pre ++ rest) = [stopCommand out errExec]) /\
            length (filter is_Go (pre ++ rest)) =
              match r0 with
              | None => if Commands_StopServerAllowKill ConfigRuntime >? 0
                        then 1%nat else 0%nat
              | Some _ => 0%nat
              end).
  { intros pre He Hgo rest r0 Hsp. rewrite !filter_app, He, Hgo. cbn [app].
    destruct Hsp as [out e|out]; unfold arm, stopCommand.
    - cbn. split; [split; [discriminate|intros [out' [=]]]|].
      split; [right; eauto|reflexivity].
    - destruct (Commands_StopServerAllowKill ConfigRuntime >? 0); cbn;
        (split; [split; [eauto|reflexivity]|]); (split; [right; eauto|reflexivity]). }
  destruct Hg as [s' Hs'|tr1 r1 _ Hc|tr1 r1 _ Hsp].
  - cbn. split; [split; [discriminate|intros [out [=]]]|]. auto.
  - destruct Hc as [new n b Hn|new n b p m Hn Hp|new n b p tr2 r2 Hn Hp Hsp].
    + cbn. split; [split; [discriminate|intros [out [=]]]|]. auto.
    + cbn. split; [split; [discriminate|intros [out [=]]]|]. auto.
    + exact (Hstop [EvAddInt32 (-1) new; EvCountPlayerSafe n b; playersLog n b;
                    EvLoadInt32 p] eq_refl eq_refl _ _ Hsp).
  - exact (Hstop [] eq_refl eq_refl _ _ Hsp).
Qed.

(** ** The books of a run that need not be finished *)

Ltac books :=
  unfold count, slept, armed_by, sum_delta, Zsum; cbn; repeat split; lia.

Ltac book_event H p := next_event H as p; [books|].

Ltac book_return H :=
  rewrite outcome_Ret in H;
  lazymatch type of H with
  | match ?tr with [] => _ | _ :: _ => _ end = _ =>
      destruct tr; [books | discriminate H]
  end.

Lemma armed_by_waits k : armed_by (waits k) = 0.
Proof. unfold armed_by, Zsum. induction k; cbn [waits fold_right is_AfterFunc]; lia. Qed.

(** StopMSRequest arms its timer only after it has added its one. *)
Lemma StopMSRequest_account tr o :
  outcome StopMSRequest tr = Some o ->
  0 <= armed_by tr <= sum_delta tr /\ sum_delta tr <= 1.
Proof.
  unfold StopMSRequest. intros H. book_event H new. book_event H ipattern:([]).
  book_return H.
Qed.

Lemma executeStop_account tr o :
  outcome executeStop tr = Some o ->
  sum_delta tr = 0 /\ count is_AddInt32 tr = 0%nat /\ armed_by tr = 0.
Proof.
  unfold executeStop. intros H. book_event H ipattern:([out errExec]).
  destruct errExec as [errExec|].
  - book_return H.
  - destruct (Commands_StopServerAllowKill ConfigRuntime >? 0).
    + book_event H ipattern:([]). book_return H.
    + rewrite bind_ret_l in H. book_return H.
Qed.

Lemma afterWait_account playersCheck tr o :
  outcome (afterWait playersCheck) tr = Some o ->
  sum_delta tr = - Z.of_nat (count is_AddInt32 tr) /\
  (count is_AddInt32 tr <= 1)%nat /\ armed_by tr = 0.
Proof.
  unfold afterWait. intros H. book_event H status.
  destruct (negb (status =? "online")%string); [book_return H|].
  assert (Hstop : forall pre rest,
            outcome executeStop rest = Some o ->
            sum_delta pre = - Z.of_nat (count is_AddInt32 pre) ->
            (count is_AddInt32 pre <= 1)%nat -> armed_by pre = 0 ->
            sum_delta (pre ++ rest) = - Z.of_nat (count is_AddInt32 (pre ++ rest)) /\
            (count is_AddInt32 (pre ++ rest) <= 1)%nat /\ armed_by (pre ++ rest) = 0).
  { intros pre rest Hr H1 H2 H3. apply executeStop_account in Hr.
    destruct Hr as (E1 & E2 & E3).
    rewrite sum_delta_app, count_app, armed_by_app, E1, E2, E3. lia. }
  destruct playersCheck.
  - unfold playersCheckBlock in H. rewrite !bind_bind in H. book_event H new.
    rewrite !bind_bind in H. book_event H ipattern:([playerCount isFromServer]).
    rewrite !bind_bind in H. book_event H ipattern:([]).
    destruct (playerCount >? 0).
    + rewrite bind_ret_l in H. book_return H.
    + rewrite !bind_bind in H. book_event H pending.
      destruct (pending >? 0).
      * rewrite !bind_bind in H. book_event H n. rewrite bind_ret_l in H. book_return H.
      * rewrite bind_ret_l in H.
        match goal with
        | |- context [sum_delta (?a :: ?b :: ?c :: ?d :: ?e :: ?rest)] =>
            apply (Hstop [a; b; c; d; e] rest H)
        end; books.
  - rewrite bind_ret_l in H.
    match goal with
    | |- context [sum_delta (?a :: ?rest)] => apply (Hstop [a] rest H)
    end; books.
Qed.

(** Whatever StopMS has done so far, finished or not: at most one change
    of the counter, by minus one, and no timer. *)
Lemma StopMS_account playersCheck tr o :
  outcome (StopMS playersCheck) tr = Some o ->
  sum_delta tr = - Z.of_nat (count is_AddInt32 tr) /\
  (count is_AddInt32 tr <= 1)%nat /\ armed_by tr = 0.
Proof.
  unfold StopMS. intros H. apply wait_inv in H.
  destruct H as [[[k Hk] _]|(k & s & rest & Hs & -> & H)].
  - destruct Hk as [ -> | [ -> | -> ] ];
      rewrite ?sum_delta_app, ?count_app, ?armed_by_app, ?sum_delta_waits,
        ?armed_by_waits, ?count_waits by reflexivity; books.
  - apply afterWait_account in H. destruct H as (E1 & E2 & E3).
    change (EvStatus s :: rest) with ([EvStatus s] ++ rest).
    rewrite !sum_delta_app, !count_app, !armed_by_app, sum_delta_waits,
      armed_by_waits, count_waits, E1, E3 by reflexivity.
    change (count is_AddInt32 [EvStatus s]) with 0%nat.
    change (sum_delta [EvStatus s]) with 0. change (armed_by [EvStatus s]) with 0.
    lia.
Qed.

Lemma StopMSRequest_func1_account tr o :
  outcome StopMSRequest_func1 tr = Some o ->
  sum_delta tr = - Z.of_nat (count is_AddInt32 tr) /\
  (count is_AddInt32 tr <= 1)%nat /\ armed_by tr = 0.
Proof.
  unfold StopMSRequest_func1. intros H. apply outcome_bind_inv in H.
  destruct H as [[H _]|(tr1 & tr2 & err & -> & H1 & H2)].
  - eapply StopMS_account; eauto.
  - apply StopMS_account in H1. destruct H1 as (E1 & E2 & E3).
    assert (Hlog : sum_delta tr2 = 0 /\ count is_AddInt32 tr2 = 0%nat /\ armed_by tr2 = 0).
    { destruct err as [e|]; [|book_return H2].
      destruct (negb (e =? "StopMS: server is not online")%string); [|book_return H2].
      book_event H2 ipattern:([]). book_return H2. }
    destruct Hlog as (L1 & L2 & L3).
    rewrite sum_delta_app, count_app, armed_by_app, L1, L2, L3. lia.
Qed.

(** X4. The func literal of StopMSRequest, as far as it has run: it takes at
    most one off the counter, never adds to it, and arms no timer, so a
    stop that was refused or failed is not tried again. *)
Theorem func1_does_not_retry tr o :
  outcome StopMSRequest_func1 tr = Some o ->
  armed_by tr = 0 /\
  (count is_AddInt32 tr <= 1)%nat /\
  sum_delta tr = - Z.of_nat (count is_AddInt32 tr) /\
  (forall delta new, In (EvAddInt32 delta new) tr -> delta = -1).
Proof.
  intros H. destruct (StopMSRequest_func1_account _ H) as (E1 & E2 & E3).
  split; [exact E3|]. split; [exact E2|]. split; [exact E1|].
  intros delta new Hin. apply in_split in Hin. destruct Hin as (l1 & l2 & ->).
  revert E1 E2. rewrite sum_delta_app, count_app.
  change (EvAddInt32 delta new :: l2) with ([EvAddInt32 delta new] ++ l2).
  rewrite sum_delta_app, count_app.
  change (sum_delta [EvAddInt32 delta new]) with (delta + 0).
  change (count is_AddInt32 [EvAddInt32 delta new]) with 1%nat.
  intros E1 E2.
  assert (Hz : forall l, count is_AddInt32 l = 0%nat -> sum_delta l = 0).
  { intros l. unfold count, sum_delta.
    induction l as [|ev l IH]; [reflexivity|]. cbn [filter fold_right].
    destruct ev; cbn [is_AddInt32 delta_of length]; intros Hl; rewrite IH; auto; lia. }
  rewrite (Hz l1), (Hz l2) in E1 by lia. lia.
Qed.

(** The books of one goroutine of the pool of requests, wherever it is. *)
Lemma thread_bounds th :
  thread_run (body (kind th)) (hist th) = Some (code th) ->
  kind th = G_StopMSRequest \/ kind th = G_func1 \/
  kind th = G_killMSifOnlineAfterTimeout ->
  armed_by (hist th) - (if is_func1 (kind th) then 1 else 0) <= sum_delta (hist th) /\
  sum_delta (hist th) <= (if is_request (kind th) then 1 else 0) /\
  armed_by (hist th) <= (if is_request (kind th) then 1 else 0).
Proof.
  intros Hwf Hk.
  assert (Hout : outcome (body (kind th)) (hist th) = Some (result (code th))).
  { unfold outcome. now rewrite Hwf. }
  destruct Hk as [Hk|[Hk|Hk]]; rewrite Hk in *; cbn [is_func1 is_request body] in *.
  - apply StopMSRequest_account in Hout. lia.
  - apply StopMSRequest_func1_account in Hout. lia.
  - apply killMSifOnlineAfterTimeout_permitted in Hout.
    apply watchdog_account in Hout. lia.
Qed.

(** X5. Take any number of StopMSRequest calls and run them, their timers and
    whatever they start in any order, as far as one likes.  At every
    moment the counter is at least the number of timers still waiting and
    at most the number of calls, so it is never negative; and there are
    never more timers and func literals than calls. *)
Theorem counter_within_requests n s0 sched p' :
  pool_run (start {| Status := s0; StopMSRequests := 0 |} (repeat G_StopMSRequest n))
           sched = Some p' ->
  Z.of_nat n < 2 ^ 31 ->
  Z.of_nat (length (timers p')) <= StopMSRequests (stats p') <= Z.of_nat n /\
  Z.of_nat (length (timers p')) + callbacks p' <= Z.of_nat n.
Proof.
  intros Hrun Hn.
  pose proof (requesters_run _ (requests_inv_start s0 n) Hrun) as Hreq.
  rewrite requesters_start in Hreq.
  apply (requests_inv_run _ (requests_inv_start s0 n)) in Hrun.
  destruct Hrun as (Hwf & Hc & Ha & _ & Hk).
  unfold total_delta, total_armed, callbacks, requesters, pool_wf in *.
  assert (Hsum : Zsum (fun th => armed_by (hist th)) (threads p') -
                 Zsum (fun th => if is_func1 (kind th) then 1 else 0) (threads p')
                 <= Zsum (fun th => sum_delta (hist th)) (threads p') /\
                 Zsum (fun th => sum_delta (hist th)) (threads p')
                 <= Zsum (fun th => if is_request (kind th) then 1 else 0) (threads p') /\
                 Zsum (fun th => armed_by (hist th)) (threads p')
                 <= Zsum (fun th => if is_request (kind th) then 1 else 0) (threads p')).
  { clear Hc Ha Hreq.
    induction (threads p') as [|th ths IH]; [cbn; lia|].
    inversion Hwf; subst. inversion Hk; subst.
    destruct IH as (IH1 & IH2 & IH3); auto.
    destruct (@thread_bounds th) as (T1 & T2 & T3); auto.
    unfold Zsum in *. cbn [fold_right]. lia. }
  destruct Hsum as (S1 & S2 & S3).
  rewrite Hc, wrap32_int32 by (unfold int32; lia). lia.
Qed.

(** ** Callbacks one after the other *)

(** With nobody storing Status, a goroutine reads the Status it started
    with. *)
Lemma stats_run_reads tr : forall st st',
  stats_run st (List.map Do tr) = Some st' ->
  Forall (fun ev => match ev with EvStatus s => s = Status st | _ => True end) tr.
Proof.
  induction tr as [|ev tr IH]; intros st st' H; cbn in H; [constructor|].
  destruct (stats_step st ev) as [st1|] eqn:Hs; [|discriminate H].
  constructor.
  - destruct ev; auto. cbn in Hs. destruct (string_dec s (Status st)); congruence.
  - apply stats_step_counter in Hs. destruct Hs as [_ Hs].
    rewrite <- Hs. eapply IH; eauto.
Qed.

(** One call of StopMS(true) alone with [Stats], the server online and
    empty: it takes one off the counter, and either gives way to what is
    left on it or sends the stop command. *)
Lemma checked_call st tr r st1 :
  outcome (StopMS true) tr = Some (Some r) ->
  stats_run st (List.map Do tr) = Some st1 ->
  Status st = "online" ->
  server_empty tr ->
  Status st1 = "online" /\
  StopMSRequests st1 = wrap32 (StopMSRequests st - 1) /\
  ((StopMSRequests st1 > 0 /\
    r = Some (PendingRequestsError (StopMSRequests st1)) /\
    count is_Execute tr = 0%nat) \/
   (StopMSRequests st1 <= 0 /\
    exists out errExec,
      In (stopCommand out errExec) tr /\ count is_Execute tr = 1%nat /\
      r = option_map StopCommandError errExec)).
Proof.
  intros Hrun Hst Honline Hempty.
  split; [rewrite (stats_run_Status _ _ Hst); exact Honline|].
  pose proof (stats_run_reads _ _ Hst) as Hreads.
  apply stats_run_counter in Hst. rewrite performed_map_Do in Hst.
  apply StopMS_runs in Hrun. destruct Hrun as [k s tr' r' Hs Hg].
  apply Forall_app in Hreads. destruct Hreads as [_ Hreads].
  inversion Hreads as [|? ? _ Hgate]; subst.
  apply Forall_app in Hempty. destruct Hempty as [_ Hempty].
  inversion Hempty as [|? ? _ Hempty']; subst. clear Hempty Hreads.
  destruct Hg as [s' Hs'|tr1 r1 _ Hc|tr1 r1 [=] _].
  { inversion Hgate; subst. congruence. }
  apply checked_run_counter in Hst.
  inversion Hempty' as [|? ? _ Hempty]; subst. clear Hempty' Hgate.
  change (waits k ++ EvStatus s :: EvStatus "online" :: tr1)
    with (waits k ++ [EvStatus s; EvStatus "online"] ++ tr1).
  rewrite !count_app, count_waits by reflexivity.
  change (count is_Execute [EvStatus s; EvStatus "online"]) with 0%nat.
  cbn [Nat.add].
  destruct Hc as [new n b Hn|new n b p m Hn Hp|new n b p tr2 r2 Hn Hp Hsp];
    unfold playersLog in Hst; cbn [counter_run] in Hst;
    destruct (Z.eq_dec new (wrap32 (StopMSRequests st + -1))) as [Hnew|];
    try discriminate Hst;
    replace (StopMSRequests st + -1) with (StopMSRequests st - 1) in Hnew by lia.
  - inversion Hempty as [|? ? _ H1]; subst. inversion H1 as [|? ? Hc _]; subst. lia.
  - destruct (Z.eq_dec p new); [|discriminate Hst].
    destruct (Z.eq_dec m new); [|discriminate Hst].
    injection Hst as <-. subst p m. split; [exact Hnew|]. left. auto.
  - destruct (Z.eq_dec p new); [|discriminate Hst]. subst p.
    assert (Hc1 : StopMSRequests st1 = new).
    { destruct Hsp as [out e|out]; unfold stopCommand, arm in Hst;
        [|destruct (Commands_StopServerAllowKill ConfigRuntime >? 0)];
        cbn [counter_run app] in Hst; congruence. }
    rewrite Hc1. split; [exact Hnew|]. right. split; [lia|].
    destruct Hsp as [out e|out]; [exists out, (Some e)|exists out, None];
      (split; [apply in_or_app; right; apply in_or_app; right; cbn; auto 10|]);
      (split; [|reflexivity]); unfold arm, stopCommand;
      try destruct (Commands_StopServerAllowKill ConfigRuntime >? 0); reflexivity.
Qed.

(** X6. The debounce at work.  As many calls of StopMS(true) as the counter
    holds, run one after the other with the server online and empty and
    nobody else at [Stats]: every call but the last returns
    PendingRequestsError with the number of calls still to come and sends
    no command, the last one sends the stop command, and the counter ends
    at 0. *)
Theorem callbacks_in_turn_debounce st calls st' :
  in_turn st calls st' ->
  Status st = "online" ->
  StopMSRequests st = Z.of_nat (length calls) ->
  Z.of_nat (length calls) < 2 ^ 31 ->
  Forall (fun c => server_empty (fst c)) calls ->
  debounced calls /\ StopMSRequests st' = 0 /\ Status st' = "online".
Proof.
  induction 1 as [st|st tr r st1 calls st' Hrun Hst Hturn IH];
    intros Honline Hc Hn Hempty.
  - cbn in Hc. repeat split; assumption.
  - inversion Hempty as [|? ? He Hempty']; subst. cbn [fst] in He.
    destruct (@checked_call _ _ _ _ Hrun Hst Honline He) as (Hon1 & Hc1 & Hcase).
    cbn [length] in Hc, Hn.
    rewrite Hc, wrap32_int32 in Hc1 by (unfold int32; lia).
    replace (Z.of_nat (S (length calls)) - 1) with (Z.of_nat (length calls)) in Hc1 by lia.
    destruct IH as (IH1 & IH2 & IH3); auto; [lia|].
    split; [|auto]. cbn [debounced].
    destruct calls as [|c calls].
    + destruct Hcase as [(Hpos & _)|(_ & Hstop)]; [cbn in Hc1; lia|exact Hstop].
    + destruct Hcase as [(_ & Hr & Hex)|(Hneg & _)]; [|cbn [length] in Hc1; lia].
      rewrite Hc1 in Hr. auto.
Qed.

(** ** Callbacks at the same time *)

(** X7. The debounce does not hold against interleaving.  With two requests
    on the counter and the server online and empty, the two calls of
    StopMS(true) can take their steps at [Stats] in an order, both
    decrements before both loads, in which each finds the counter at 0:
    both send the stop command and both return nil. *)
Theorem stop_command_can_go_out_twice :
  exists steps st',
    stats_run {| Status := "online"; StopMSRequests := 2 |}
              (List.map (fun x => Do (snd x)) steps) = Some st' /\
    outcome (StopMS true) (side false steps) = Some (Some None) /\
    outcome (StopMS true) (side true steps) = Some (Some None) /\
    server_empty (List.map snd steps) /\
    count is_Execute (side false steps) = 1%nat /\
    count is_Execute (side true steps) = 1%nat /\
    StopMSRequests st' = 0.
Proof.
  exists ([(false, EvStatus "online"); (false, EvStatus "online");
           (false, EvAddInt32 (-1) 1);
           (true, EvStatus "online"); (true, EvStatus "online");
           (true, EvAddInt32 (-1) 0);
           (false, EvCountPlayerSafe 0 true); (false, playersLog 0 true);
           (false, EvLoadInt32 0);
           (true, EvCountPlayerSafe 0 true); (true, playersLog 0 true);
           (true, EvLoadInt32 0);
           (false, stopCommand "" None)]
          ++ List.map (pair false) arm
          ++ [(true, stopCommand "" None)]
          ++ List.map (pair true) arm).
  exists {| Status := "online"; StopMSRequests := 0 |}.
  assert (Hrun : StopMS_run true
                   (waits 0 ++ EvStatus "online" ::
                    [EvStatus "online"; EvAddInt32 (-1) 1; EvCountPlayerSafe 0 true;
                     playersLog 0 true; EvLoadInt32 0; stopCommand "" None] ++ arm)
                   None /\
                 StopMS_run true
                   (waits 0 ++ EvStatus "online" ::
                    [EvStatus "online"; EvAddInt32 (-1) 0; EvCountPlayerSafe 0 true;
                     playersLog 0 true; EvLoadInt32 0; stopCommand "" None] ++ arm)
                   None).
  { split; (constructor; [discriminate|]); apply gate_checked; auto;
      (apply check_passed; [lia..|]); apply stop_issued. }
  destruct Hrun as [Hrun1 Hrun2]. apply StopMS_runs in Hrun1, Hrun2.
  unfold arm in *.
  destruct (Commands_StopServerAllowKill ConfigRuntime >? 0); cbn in Hrun1, Hrun2 |- *;
    (split; [reflexivity|]); (split; [exact Hrun1|]); (split; [exact Hrun2|]);
    (split; [|auto]); unfold server_empty;
    repeat first [apply Forall_nil | apply Forall_cons]; try exact I; lia.
Qed.

(** ** More on the watchdog *)

Lemma length_polls seen : length (polls seen) = (3 * length seen)%nat.
Proof.
  unfold polls. induction seen as [|s seen IH]; cbn [flat_map app length] in *; lia.
Qed.

Lemma slept_polls seen : slept (polls seen) = Z.of_nat (length seen) * Second.
Proof.
  unfold slept, Zsum, polls.
  induction seen as [|s seen IH]; cbn [flat_map app length fold_right] in *; lia.
Qed.

Lemma count_polls (f : Event -> bool) seen :
  f (EvSleep Second) = false -> f EvTau = false ->
  count f (polls seen) = count f (List.map EvStatus seen).
Proof.
  intros H1 H2. unfold count, polls.
  induction seen as [|s seen IH]; cbn [flat_map app filter List.map] in *;
    [reflexivity|].
  rewrite H1, H2. destruct (f (EvStatus s)); cbn [length]; now rewrite IH.
Qed.

Lemma count_Status_polls seen : count is_Status (polls seen) = length seen.
Proof.
  rewrite count_polls by reflexivity. unfold count.
  induction seen as [|s seen IH]; cbn [List.map filter is_Status length]; auto.
Qed.

Lemma count_Kill_polls seen : count is_Kill (polls seen) = 0%nat.
Proof.
  rewrite count_polls by reflexivity. unfold count.
  induction seen as [|s seen IH]; cbn [List.map filter is_Kill length]; auto.
Qed.

Ltac watchdog_books :=
  unfold count, slept, Zsum, Second in *; cbn [length filter fold_right is_Kill is_Status];
  split; [lia|]; split; [lia|];
  first [ solve [left; repeat split; lia] | solve [right; repeat split; lia] ].

Ltac watchdog_event H p := next_event H as p; [watchdog_books|].

Ltac watchdog_return H :=
  rewrite outcome_Ret in H;
  lazymatch type of H with
  | match ?tr with [] => _ | _ :: _ => _ end = _ =>
      destruct tr; [watchdog_books | discriminate H]
  end.

(** The books of the watchdog, wherever it is. *)
Lemma watchdog_books_hold tr o :
  outcome killMSifOnlineAfterTimeout tr = Some o ->
  (length tr <= 3 * grace + 6)%nat /\
  (count is_Status tr <= grace)%nat /\
  ((count is_Kill tr = 0%nat /\ 0 <= slept tr <= (Z.of_nat grace + 10) * Second) \/
   (count is_Kill tr = 1%nat /\ slept tr = (Z.of_nat grace + 10) * Second /\
    count is_Status tr = grace)).
Proof.
  unfold killMSifOnlineAfterTimeout. intros H.
  apply (@poll_inv _ _ grace) in H; [|reflexivity].
  destruct H as [[(seen & Hl & _ & Ht) _]
                |[(seen & rest & Hl & _ & -> & H)|(seen & rest & Hl & _ & -> & H)]].
  - destruct Ht as [ -> | (s & _ & [ -> | -> ]) ];
      rewrite ?length_app, ?count_app, ?slept_app, length_polls, count_Status_polls,
        count_Kill_polls, slept_polls;
      generalize dependent (length seen); intros m Hm; watchdog_books.
  - rewrite outcome_Ret in H. destruct rest; [|discriminate H].
    rewrite ?length_app, ?count_app, ?slept_app, length_polls, count_Status_polls,
      count_Kill_polls, slept_polls.
    generalize dependent (length seen); intros m Hm; watchdog_books.
  - rewrite ?length_app, ?count_app, ?slept_app, length_polls, count_Status_polls,
      count_Kill_polls, slept_polls, Hl.
    clear Hl seen. generalize grace. intros m.
    watchdog_event H ipattern:([]). watchdog_event H ipattern:([out errSave]).
    watchdog_event H ipattern:([]). watchdog_event H ipattern:([]).
    watchdog_event H errKill.
    destruct errKill.
    + watchdog_event H ipattern:([]). watchdog_return H.
    + watchdog_return H.
Qed.

(** X8. No kill before its time.  In every run of the watchdog, finished or
    not, the kill signal goes out at most once, and when it has gone out
    the watchdog has read Status once for each second of
    StopServerAllowKill and has slept all those seconds and ten more. *)
Theorem watchdog_kills_after_grace_and_buffer tr o :
  outcome killMSifOnlineAfterTimeout tr = Some o ->
  (count is_Kill tr <= 1)%nat /\
  (count is_Kill tr = 1%nat ->
   slept tr = (Z.max 0 (Commands_StopServerAllowKill ConfigRuntime) + 10) * Second /\
   Z.of_nat (count is_Status tr) = Z.max 0 (Commands_StopServerAllowKill ConfigRuntime)).
Proof.
  intros H. destruct (watchdog_books_hold _ H) as (_ & _ & Hk).
  unfold grace in Hk.
  destruct Hk as [(Hk & _)|(Hk & Hs & Hr)]; (split; [lia|]); intros Hone; [lia|].
  rewrite Hs, Hr. split; [f_equal|]; lia.
Qed.

(** X9. The watchdog comes to an end whatever it is answered: it cannot take
    more than three steps for each second of StopServerAllowKill and six
    more, nor sleep longer than those seconds and ten more. *)
Theorem watchdog_is_bounded tr o :
  outcome killMSifOnlineAfterTimeout tr = Some o ->
  (length tr <= 3 * grace + 6)%nat /\
  (count is_Status tr <= grace)%nat /\
  0 <= slept tr <= (Z.max 0 (Commands_StopServerAllowKill ConfigRuntime) + 10) * Second.
Proof.
  intros H. destruct (watchdog_books_hold _ H) as (Hlen & Hst & Hk).
  split; [exact Hlen|]. split; [exact Hst|].
  replace (Z.max 0 (Commands_StopServerAllowKill ConfigRuntime)) with (Z.of_nat grace)
    by (unfold grace; lia).
  unfold Second in *. destruct Hk as [(_ & Hs)|(_ & Hs & _)]; lia.
Qed.

(** X10. Called with a StopServerAllowKill that is not positive, the watchdog
    does not look at Status at all: its runs are the flush, the ten
    seconds and the kill. *)
Theorem watchdog_without_grace tr :
  Commands_StopServerAllowKill ConfigRuntime <= 0 ->
  outcome killMSifOnlineAfterTimeout tr = Some (Some tt) <->
  exists out errSave errKill, tr = escalation out errSave errKill.
Proof.
  intros HK. rewrite killMSifOnlineAfterTimeout_runs.
  assert (Hg : grace = 0%nat) by (unfold grace; lia).
  split.
  - intros [seen Hl Hf|seen out errSave errKill Hl Hf]; [lia|].
    rewrite Hg in Hl. destruct seen; [|discriminate Hl]. cbn [polls flat_map app]. eauto.
  - intros (out & errSave & errKill & ->).
    apply (@kill_escalated [] out errSave errKill); [now rewrite Hg|constructor].
Qed.

(** ** The idle timeout *)

(** X11. [time.Duration(TimeBeforeStoppingEmptyServer) * time.Second] is that
    many seconds exactly for the settings up to 9223372036 either way;
    beyond that the multiplication overflows. *)
Theorem idleTimeout_in_seconds :
  - 2 ^ 63 <= Msh_TimeBeforeStoppingEmptyServer ConfigRuntime < 2 ^ 63 ->
  idleTimeout = Msh_TimeBeforeStoppingEmptyServer ConfigRuntime * Second <->
  -9223372036 <= Msh_TimeBeforeStoppingEmptyServer ConfigRuntime <= 9223372036.
Proof.
  unfold idleTimeout, wrap64, Second.
  generalize (Msh_TimeBeforeStoppingEmptyServer ConfigRuntime). intros T HT.
  rewrite (Z.mod_small (T + 2 ^ 63)) by lia.
  replace (T + 2 ^ 63 - 2 ^ 63) with T by lia.
  pose proof (Z.mod_pos_bound (T * 1000000000 + 2 ^ 63) (2 ^ 64) ltac:(lia)) as Hb.
  split.
  - intros Heq. lia.
  - intros HR. rewrite Z.mod_small by lia. lia.
Qed.

(** ** No stop command without the checks *)

Ltac end_of_run H tac :=
  rewrite outcome_Ret in H;
  lazymatch type of H with
  | match ?tr with [] => _ | _ :: _ => _ end = _ =>
      destruct tr; [tac | discriminate H]
  end.

(** A run of StopMS(true), finished or not, that has sent a command has
    before that found Status "online", nobody on the server and nothing
    left on the counter. *)
Lemma StopMS_checked_before_stop tr o :
  outcome (StopMS true) tr = Some o ->
  count is_Execute tr = 0%nat \/
  exists k s new playerCount isFromServer pending rest,
    tr = waits k ++ EvStatus s :: EvStatus "online" :: EvAddInt32 (-1) new ::
         EvCountPlayerSafe playerCount isFromServer ::
         playersLog playerCount isFromServer :: EvLoadInt32 pending :: rest /\
    playerCount <= 0 /\ pending <= 0.
Proof.
  unfold StopMS. intros H. apply wait_inv in H.
  destruct H as [[[k Hk] _]|(k & s & rest & Hs & -> & H)].
  { left. destruct Hk as [ -> | [ -> | -> ] ];
      rewrite ?count_app, count_waits by reflexivity; reflexivity. }
  assert (Hquiet : forall l, count is_Execute l = 0%nat ->
                             count is_Execute (waits k ++ EvStatus s :: l) = 0%nat).
  { intros l Hl. change (EvStatus s :: l) with ([EvStatus s] ++ l).
    rewrite !count_app, count_waits, Hl by reflexivity. reflexivity. }
  unfold afterWait in H. next_event H as status; [left; now apply Hquiet|].
  destruct (String.eqb_spec status "online") as [Hx|Hx]; [subst status|];
    cbn [negb] in H.
  2:{ end_of_run H ltac:(left; now apply Hquiet). }
  unfold playersCheckBlock in H. rewrite !bind_bind in H.
  next_event H as new; [left; now apply Hquiet|].
  rewrite !bind_bind in H.
  next_event H as [playerCount isFromServer]; [left; now apply Hquiet|].
  rewrite !bind_bind in H. next_event H as []; [left; now apply Hquiet|].
  destruct (Z.gtb_spec playerCount 0) as [Hp|Hp].
  { rewrite bind_ret_l in H. end_of_run H ltac:(left; now apply Hquiet). }
  rewrite !bind_bind in H. next_event H as pending; [left; now apply Hquiet|].
  destruct (Z.gtb_spec pending 0) as [Hq|Hq].
  { rewrite !bind_bind in H. next_event H as n; [left; now apply Hquiet|].
    rewrite bind_ret_l in H. end_of_run H ltac:(left; now apply Hquiet). }
  right. do 7 eexists. split; [reflexivity|auto].
Qed.

(** The only command StopMS sends is the stop command. *)
Lemma StopMS_commands playersCheck tr o :
  outcome (StopMS playersCheck) tr = Some o ->
  Forall (fun ev => match ev with
                    | EvExecute c origin _ _ =>
                        c = Commands_StopServer ConfigRuntime /\ origin = "StopMS"
                    | _ => True
                    end) tr.
Proof.
  unfold StopMS. intros H. apply wait_inv in H.
  destruct H as [[[k Hk] _]|(k & s & rest & Hs & -> & H)].
  { destruct Hk as [ -> | [ -> | -> ] ]; rewrite ?Forall_app; repeat split;
      try apply Forall_waits; repeat constructor. }
  rewrite Forall_app. split; [apply Forall_waits; cbn; auto|].
  constructor; [cbn; auto|].
  assert (Hstop : forall tr0,
            outcome executeStop tr0 = Some o ->
            Forall (fun ev => match ev with
                              | EvExecute c origin _ _ =>
                                  c = Commands_StopServer ConfigRuntime /\ origin = "StopMS"
                              | _ => True
                              end) tr0).
  { clear. intros tr H. unfold executeStop in H.
    walk_event H ipattern:([out errExec]).
    destruct errExec as [errExec|]; [walk_return H|].
    destruct (Commands_StopServerAllowKill ConfigRuntime >? 0).
    - walk_event H ipattern:([]). walk_return H.
    - rewrite bind_ret_l in H. walk_return H. }
  revert H. generalize rest. clear - Hstop. intros tr H.
  unfold afterWait in H. walk_event H status.
  destruct (negb (status =? "online")%string); [walk_return H|].
  destruct playersCheck.
  - unfold playersCheckBlock in H. rewrite !bind_bind in H. walk_event H new.
    rewrite !bind_bind in H. walk_event H ipattern:([playerCount isFromServer]).
    rewrite !bind_bind in H. walk_event H ipattern:([]).
    destruct (playerCount >? 0).
    + rewrite bind_ret_l in H. walk_return H.
    + rewrite !bind_bind in H. walk_event H pending.
      destruct (pending >? 0).
      * rewrite !bind_bind in H. walk_event H n. rewrite bind_ret_l in H. walk_return H.
      * rewrite bind_ret_l in H. now apply Hstop.
  - rewrite bind_ret_l in H. now apply Hstop.
Qed.

(** X12. Take any number of StopMSRequest calls and run them, their timers and
    whatever they start in any order, as far as one likes, with Status
    changing freely.  A func literal that has sent a command, and the only
    command it sends is the stop command, has itself before that found
    Status "online", counted no player and read a counter that was not
    positive. *)
Theorem no_stop_command_unchecked n s0 sched p' th :
  pool_run (start {| Status := s0; StopMSRequests := 0 |} (repeat G_StopMSRequest n))
           sched = Some p' ->
  In th (threads p') ->
  kind th = G_func1 ->
  (forall c o out err, In (EvExecute c o out err) (hist th) ->
                       c = Commands_StopServer ConfigRuntime /\ o = "StopMS") /\
  (count is_Execute (hist th) = 0%nat \/
   exists k s new playerCount isFromServer pending rest,
     hist th = waits k ++ EvStatus s :: EvStatus "online" :: EvAddInt32 (-1) new ::
               EvCountPlayerSafe playerCount isFromServer ::
               playersLog playerCount isFromServer :: EvLoadInt32 pending :: rest /\
     playerCount <= 0 /\ pending <= 0).
Proof.
  intros Hrun Hin Hkind.
  apply (requests_inv_run _ (requests_inv_start s0 n)) in Hrun.
  destruct Hrun as (Hwf & _). unfold pool_wf in Hwf. rewrite Forall_forall in Hwf.
  specialize (Hwf th Hin). rewrite Hkind in Hwf. cbn [body] in Hwf.
  assert (Hout : outcome StopMSRequest_func1 (hist th) = Some (result (code th))).
  { unfold outcome. now rewrite Hwf. }
  clear Hwf. revert Hout. generalize (result (code th)) (hist th). intros o tr Hout.
  unfold StopMSRequest_func1 in Hout. apply outcome_bind_inv in Hout.
  assert (Hcmd : forall tr0 o0, outcome (StopMS true) tr0 = Some o0 ->
            forall c o1 out err, In (EvExecute c o1 out err) tr0 ->
                                 c = Commands_StopServer ConfigRuntime /\ o1 = "StopMS").
  { intros tr0 o0 H0 c o1 out err Hi. apply StopMS_commands in H0.
    rewrite Forall_forall in H0. exact (H0 _ Hi). }
  destruct Hout as [[H _]|(tr1 & tr2 & err & -> & H1 & H2)].
  - split; [eapply Hcmd; eauto|]. eapply StopMS_checked_before_stop; eauto.
  - assert (Hlog : forall ev, In ev tr2 -> is_Execute ev = false).
    { destruct err as [e|].
      - destruct (negb (e =? "StopMS: server is not online")%string).
        + next_event H2 as []; [intros ev []|].
          end_of_run H2 ltac:(intros ev [<-|[]]; reflexivity).
        + end_of_run H2 ltac:(intros ev []).
      - end_of_run H2 ltac:(intros ev []). }
    split.
    + intros c o1 out e Hi. apply in_app_iff in Hi. destruct Hi as [Hi|Hi].
      * eapply Hcmd; eauto.
      * apply Hlog in Hi. discriminate Hi.
    + destruct (StopMS_checked_before_stop _ H1)
        as [Hz|(k & s & new & pc & b & p & rest & -> & Hp & Hq)].
      * left. rewrite count_app, Hz. cbn [Nat.add]. clear - Hlog. unfold count.
        induction tr2 as [|ev tr2 IH]; [reflexivity|]. cbn [filter].
        rewrite (Hlog ev) by (cbn; auto). apply IH. intros; apply Hlog; cbn; auto.
      * right. exists k, s, new, pc, b, p, (rest ++ tr2).
        rewrite <- app_assoc. cbn [app]. auto.
Qed.

(** ** Who does what *)

(** X13. Each function of servctrl.go keeps to its part, in every run, finished
    or not: only killMSifOnlineAfterTimeout sends the kill signal, and it
    neither touches the counter, nor arms a timer, nor starts a goroutine;
    the only goroutine the others start is that watchdog, and only under a
    configuration that allows the kill; the only func a timer is armed
    with is the func literal of StopMSRequest. *)
Theorem only_the_watchdog_kills g tr o :
  outcome (body g) tr = Some o ->
  (forall errKill, In (EvKill errKill) tr -> g = G_killMSifOnlineAfterTimeout) /\
  (g = G_killMSifOnlineAfterTimeout ->
   forall ev, In ev tr ->
              is_AddInt32 ev = false /\ is_AfterFunc ev = false /\ is_Go ev = false) /\
  (forall g', In (EvGo g') tr ->
              g' = G_killMSifOnlineAfterTimeout /\
              Commands_StopServerAllowKill ConfigRuntime > 0) /\
  (forall d g', In (EvAfterFunc d g') tr -> g' = G_func1).
Proof.
  intros H. apply body_permitted in H. rewrite Forall_forall in H.
  split; [|split; [|split]].
  - intros errKill Hin. apply H in Hin. cbn in Hin. destruct g; auto; discriminate Hin.
  - intros -> ev Hin. apply H in Hin. cbn [is_watchdog] in Hin.
    destruct ev; cbn in Hin |- *; auto; try discriminate Hin;
      destruct Hin as (_ & Hin); try discriminate Hin.
    destruct Hin as [_ Hin]. discriminate Hin.
  - intros g' Hin. apply H in Hin. cbn in Hin. tauto.
  - intros d g' Hin. apply H in Hin. cbn in Hin. tauto.
Qed.

End Servctrl.

(** ** config: the whitelist *)

Lemma rangeParams_exists SliceContain Whitelist params :
  rangeParams SliceContain Whitelist params = true <->
  exists p, In p params /\ SliceContain p Whitelist = true.
Proof.
  induction params as [|p params IH]; cbn [rangeParams In].
  - split; [discriminate|intros (p & [] & _)].
  - destruct (SliceContain p Whitelist) eqn:Hp.
    + split; [eauto|reflexivity].
    + rewrite IH. split; intros (q & Hq & Hc); [eauto|].
      destruct Hq as [<-|Hq]; [congruence|eauto].
Qed.

(** X14. An empty whitelist lets everybody in; otherwise InWhitelist returns
    nil exactly when one of its parameters is in the whitelist, whatever
    their order, and the error it returns else is the one of a player not
    in the whitelist.  With no parameter at all and a whitelist in force
    it refuses. *)
Theorem InWhitelist_accepts_iff_listed SliceContain Whitelist params :
  (snd (InWhitelist SliceContain Whitelist params) = None <->
   Whitelist = [] \/ exists p, In p params /\ SliceContain p Whitelist = true) /\
  (snd (InWhitelist SliceContain Whitelist params) = None \/
   snd (InWhitelist SliceContain Whitelist params) =
     Some (NewErr ERROR_PLAYER_NOT_IN_WHITELIST LVL_B "InWhitelist"
                  "playerName or clientAddress is not whitelisted")) /\
  (Whitelist <> [] -> snd (InWhitelist SliceContain Whitelist []) <> None).
Proof.
  unfold InWhitelist. destruct Whitelist as [|w Whitelist]; cbn [length Nat.eqb snd].
  - split; [split; auto|]. split; [auto|congruence].
  - pose proof (rangeParams_exists SliceContain (w :: Whitelist) params) as Hr.
    destruct (rangeParams SliceContain (w :: Whitelist) params); cbn [snd].
    + split; [split; [intros _; right; now apply Hr|reflexivity]|].
      split; [auto|discriminate].
    + split; [split; [discriminate|]|].
      { intros [[=]|He]. apply Hr in He. discriminate He. }
      split; [auto|discriminate].
Qed.

(** ** The code at work

    The theorems above, applied to runs of the code on [sampleConfig]. *)

(** One request filed while the server is online; the server goes
    offline before the timer fires; the func literal stops at the gate,
    and the counter stays at 1. *)
Lemma offline_request_run :
  let cfg := sampleConfig 0 in
  exists p',
    pool_run cfg
             (start cfg {| Status := "online"; StopMSRequests := 0 |}
                    (repeat G_StopMSRequest 1))
             [Run 0 (EvAddInt32 1 1);
              Run 0 (EvAfterFunc (idleTimeout cfg) G_func1);
              SetStatus "offline";
              Fire 0;
              Run 1 (EvStatus "offline");
              Run 1 (EvStatus "offline")] = Some p' /\
    timers p' = [] /\
    (forall th, In th (threads p') -> result (code th) = Some tt) /\
    StopMSRequests (stats p') = 1.
Proof.
  intros cfg. eexists. split; [vm_compute; reflexivity|].
  split; [reflexivity|]. split; [|reflexivity].
  intros th [<-|[<-|[]]]; vm_compute; reflexivity.
Qed.

(** C2 fails as worded: a func literal that finds the server not online
    returns before the decrement, and the counter stays above 0. *)
Lemma requests_do_not_always_drain : ~ requests_always_drain (sampleConfig 0).
Proof.
  intros H. destruct offline_request_run as (p' & Hrun & Ht & Hdone & Hc).
  specialize (H 1%nat "online" _ p' Hrun Ht Hdone). rewrite Hc in H. discriminate H.
Qed.

(** Two requests; their func literals race, both find the server empty and
    the counter at 0, and both send the stop command. *)
Lemma pending_requests_drain_witness :
  let cfg := sampleConfig 5 in
  exists p',
    pool_run cfg
             (start cfg {| Status := "online"; StopMSRequests := 0 |}
                    (repeat G_StopMSRequest 2))
             [Run 0 (EvAddInt32 1 1);
              Run 1 (EvAddInt32 1 2);
              Run 1 (EvAfterFunc (idleTimeout cfg) G_func1);
              Run 0 (EvAfterFunc (idleTimeout cfg) G_func1);
              Fire 1; Fire 0;
              Run 2 (EvStatus "online");
              Run 3 (EvStatus "online");
              Run 3 (EvStatus "online");
              Run 3 (EvAddInt32 (-1) 1);
              Run 2 (EvStatus "online");
              Run 2 (EvAddInt32 (-1) 0);
              Run 2 (EvCountPlayerSafe 0 true);
              Run 2 (playersLog 0 true);
              Run 3 (EvCountPlayerSafe 0 false);
              Run 3 (playersLog 0 false);
              Run 3 (EvLoadInt32 0);
              Run 2 (EvLoadInt32 0);
              Run 2 (stopCommand cfg "" None);
              Run 2 (EvGo G_killMSifOnlineAfterTimeout);
              Run 3 (stopCommand cfg "" (Some "broken pipe"));
              Run 3 (EvLogln [AStr "StopMSRequest:";
                              AErr (StopCommandError "broken pipe")])] = Some p' /\
    callbacks p' = 2 /\
    StopMSRequests (stats p') = wrap32 (refusals p') /\
    ((forall th, In th (threads p') -> refused th = false) ->
     StopMSRequests (stats p') = 0).
Proof.
  intros cfg.
  match goal with |- exists p', pool_run _ _ ?s = _ /\ _ => set (sched := s) end.
  eexists. split; [vm_compute; reflexivity|].
  apply (@pending_requests_drain cfg 2 "online" sched).
  - vm_compute. reflexivity.
  - reflexivity.
  - intros th [<-|[<-|[<-|[<-|[<-|[]]]]]]; intros Hw;
      try discriminate Hw; vm_compute; reflexivity.
Defined.


(** Two turns of waiting, then the server is stopping: not online. *)
Lemma StopMS_waits_then_gate_witness :
  let cfg := sampleConfig 5 in
  let tr := waits 2 ++ [EvStatus "stopping"; EvStatus "offline"] in
  outcome (StopMS cfg false) tr = Some (Some (Some NotOnlineError)) /\
  ((still_waiting tr /\ Some (Some NotOnlineError) = None /\ forallb quiet tr = true) \/
   (exists k s rest,
       s <> "starting" /\ tr = waits k ++ EvStatus s :: rest /\
       ((rest = [] /\ Some (Some NotOnlineError) = None) \/
        (exists s' rest',
            rest = EvStatus s' :: rest' /\
            (s' <> "online" ->
             rest' = [] /\ Some (Some NotOnlineError) = Some (Some NotOnlineError) /\
             forallb quiet tr = true))))).
Proof.
  intros cfg tr.
  assert (H : outcome (StopMS cfg false) tr = Some (Some (Some NotOnlineError))).
  { apply (proj2 (StopMS_waits_then_gate cfg false) 2%nat "stopping" "offline");
      discriminate. }
  split; [exact H|].
  exact (proj1 (StopMS_waits_then_gate cfg false) tr _ H).
Defined.


(** The only request fires while two players are online. *)
Lemma StopMS_not_empty_consumes_request_witness :
  let cfg := sampleConfig 5 in
  let st := {| Status := "online"; StopMSRequests := 1 |} in
  let steps :=
    List.map Do [EvStatus "online"; EvStatus "online"; EvAddInt32 (-1) 0;
                 EvCountPlayerSafe 2 true; playersLog 2 true] in
  let st' := {| Status := "online"; StopMSRequests := 0 |} in
  stats_run st steps = Some st' /\
  outcome (StopMS cfg true) (performed steps) = Some (Some (Some ServerNotEmptyError)) /\
  StopMSRequests st' = wrap32 (StopMSRequests st - 1) /\
  (int32 (StopMSRequests st - 1) -> StopMSRequests st' = StopMSRequests st - 1) /\
  sum_delta (performed steps) = -1 /\
  forallb (fun ev => negb (is_AfterFunc ev)) (performed steps) = true.
Proof.
  intros cfg st steps st'.
  assert (H1 : stats_run st steps = Some st') by (vm_compute; reflexivity).
  assert (H2 : outcome (StopMS cfg true) (performed steps)
               = Some (Some (Some ServerNotEmptyError))) by (vm_compute; reflexivity).
  split; [exact H1|]. split; [exact H2|].
  exact (@StopMS_not_empty_consumes_request cfg st steps st' H1 H2).
Defined.


(** One request: the counter goes from 0 to 1, the timer is set to 30 s. *)
Lemma StopMSRequest_counts_and_schedules_witness :
  let cfg := sampleConfig 5 in
  let st := {| Status := "online"; StopMSRequests := 0 |} in
  let steps := List.map Do [EvAddInt32 1 1; EvAfterFunc (idleTimeout cfg) G_func1] in
  let st' := {| Status := "online"; StopMSRequests := 1 |} in
  idleTimeout cfg = 30 * Second /\
  stats_run st steps = Some st' /\
  outcome (StopMSRequest cfg) (performed steps) = Some (Some tt) /\
  StopMSRequests st' = StopMSRequests st + 1 /\
  func1_log (Some ServerNotEmptyError)
  = [EvLogln [AStr "StopMSRequest:"; AErr ServerNotEmptyError]].
Proof.
  intros cfg st steps st'.
  assert (H1 : stats_run st steps = Some st') by (vm_compute; reflexivity).
  assert (H2 : outcome (StopMSRequest cfg) (performed steps) = Some (Some tt)).
  { apply (proj1 (StopMSRequest_counts_and_schedules cfg)). exists 1. reflexivity. }
  split; [reflexivity|]. split; [exact H1|]. split; [exact H2|].
  split.
  - apply (proj1 (proj2 (StopMSRequest_counts_and_schedules cfg)) st steps st' H1 H2).
    unfold int32. cbn. lia.
  - apply (proj1 (proj2 (proj2 (proj2 (proj2 (proj2 (proj2
             (StopMSRequest_counts_and_schedules cfg)))))))).
    discriminate.
Defined.


(** The server goes offline during the sleep of the second and last poll. *)
Lemma watchdog_ignores_late_offline_witness :
  let cfg := sampleConfig 2 in
  let st := {| Status := "stopping"; StopMSRequests := 0 |} in
  let steps :=
    List.map Do (polls (repeat "stopping" 1)) ++
    [Do (EvStatus "stopping"); Do (EvSleep Second); StoreStatus "offline"; Do EvTau] ++
    List.map Do (flush "" None ++ kill None) in
  grace cfg = 2%nat /\
  Status st <> "offline" /\
  exists st',
    stats_run st steps = Some st' /\
    Status st' = "offline" /\
    outcome (killMSifOnlineAfterTimeout cfg) (performed steps) = Some (Some tt) /\
    In (EvExecute "save-all" "killMSifOnlineAfterTimeout" "" None) (performed steps) /\
    In (EvKill None) (performed steps).
Proof.
  intros cfg st steps.
  assert (H1 : grace cfg = 2%nat) by reflexivity.
  assert (H2 : Status st <> "offline") by discriminate.
  split; [exact H1|]. split; [exact H2|].
  apply (proj2 (watchdog_ignores_late_offline cfg) st 1%nat "" None None H1 H2).
  left. reflexivity.
Defined.

(** A stop without checks under a grace period of 0. *)
Lemma no_kill_without_grace_witness :
  let cfg := sampleConfig 0 in
  let sched :=
    [Run 0 (EvStatus "online"); Run 0 (EvStatus "online");
     Run 0 (stopCommand cfg "" None)] in
  Commands_StopServerAllowKill cfg = 0 /\
  exists p',
    pool_run cfg (start cfg {| Status := "online"; StopMSRequests := 0 |} [G_StopMS false])
             sched = Some p' /\
    forallb harmless (events_of sched) = true /\
    forallb (fun th => negb (is_watchdog (kind th))) (threads p') = true.
Proof.
  intros cfg sched.
  assert (H0 : Commands_StopServerAllowKill cfg = 0) by reflexivity.
  split; [exact H0|].
  eexists. split; [vm_compute; reflexivity|].
  apply (proj2 (no_kill_without_grace cfg H0)
               {| Status := "online"; StopMSRequests := 0 |} [G_StopMS false] sched).
  - reflexivity.
  - vm_compute. reflexivity.
Defined.

(** ** More of the code at work *)

(** The java binary is missing: StartMS hands the error on, wrapped. *)
Lemma StartMS_runs_cmdStart_only_witness :
  let cfg := sampleConfig 5 in
  let tr := [EvCmdStart "/srv/minecraft" "java -jar server.jar nogui"
                        (Some "exec: java: not found")] in
  let r := Some (StartError "exec: java: not found") in
  outcome (StartMS cfg) tr = Some (Some r) /\
  exists err,
    tr = [EvCmdStart (Server_Folder cfg) (Commands_StartServer cfg) err] /\
    r = option_map StartError err.
Proof.
  intros cfg tr r.
  assert (H : outcome (StartMS cfg) tr = Some (Some r)) by (vm_compute; reflexivity).
  split; [exact H|]. exact (proj1 (StartMS_runs_cmdStart_only cfg tr r) H).
Defined.

(** A forced stop of an online server: one stop command, one watchdog. *)
Lemma StopMS_nil_iff_stop_delivered_witness :
  let cfg := sampleConfig 5 in
  let tr := [EvStatus "online"; EvStatus "online"; stopCommand cfg "" None;
             EvGo G_killMSifOnlineAfterTimeout] in
  outcome (StopMS cfg false) tr = Some (Some None) /\
  (@None error = None <-> exists out, filter is_Execute tr = [stopCommand cfg out None]) /\
  (filter is_Execute tr = [] \/
   exists out errExec, filter is_Execute tr = [stopCommand cfg out errExec]) /\
  count is_Go tr = 1%nat.
Proof.
  intros cfg tr.
  assert (H : outcome (StopMS cfg false) tr = Some (Some None)) by (vm_compute; reflexivity).
  split; [exact H|]. exact (StopMS_nil_iff_stop_delivered cfg false tr H).
Defined.

(** A func literal that found two players: one off the counter, a log
    line, and no new timer. *)
Lemma func1_does_not_retry_witness :
  let cfg := sampleConfig 5 in
  let tr := [EvStatus "online"; EvStatus "online"; EvAddInt32 (-1) 0;
             EvCountPlayerSafe 2 true; playersLog 2 true;
             EvLogln [AStr "StopMSRequest:"; AErr ServerNotEmptyError]] in
  outcome (StopMSRequest_func1 cfg) tr = Some (Some tt) /\
  armed_by tr = 0 /\
  (count is_AddInt32 tr <= 1)%nat /\
  sum_delta tr = - Z.of_nat (count is_AddInt32 tr) /\
  (forall delta new, In (EvAddInt32 delta new) tr -> delta = -1).
Proof.
  intros cfg tr.
  assert (H : outcome (StopMSRequest_func1 cfg) tr = Some (Some tt))
    by (vm_compute; reflexivity).
  split; [exact H|]. exact (func1_does_not_retry cfg tr H).
Defined.

(** Two requests, the second one between its increment and its timer. *)
Lemma counter_within_requests_witness :
  let cfg := sampleConfig 5 in
  exists p',
    pool_run cfg
             (start cfg {| Status := "online"; StopMSRequests := 0 |}
                    (repeat G_StopMSRequest 2))
             [Run 0 (EvAddInt32 1 1);
              Run 0 (EvAfterFunc (idleTimeout cfg) G_func1);
              Run 1 (EvAddInt32 1 2)] = Some p' /\
    Z.of_nat 2 < 2 ^ 31 /\
    (Z.of_nat (length (timers p')) <= StopMSRequests (stats p') <= Z.of_nat 2 /\
     Z.of_nat (length (timers p')) + callbacks p' <= Z.of_nat 2).
Proof.
  intros cfg.
  match goal with |- exists p', pool_run _ _ ?s = _ /\ _ => set (sched := s) end.
  eexists. split; [vm_compute; reflexivity|].
  split; [lia|].
  apply (@counter_within_requests cfg 2 "online" sched).
  - vm_compute. reflexivity.
  - lia.
Defined.

(** Two callbacks in turn on a counter of 2: the first gives way, the
    second stops the server. *)
Lemma callbacks_in_turn_debounce_witness :
  let cfg := sampleConfig 5 in
  let st := {| Status := "online"; StopMSRequests := 2 |} in
  let st' := {| Status := "online"; StopMSRequests := 0 |} in
  let calls :=
    [([EvStatus "online"; EvStatus "online"; EvAddInt32 (-1) 1;
       EvCountPlayerSafe 0 true; playersLog 0 true;
       EvLoadInt32 1; EvStopMSRequests 1],
      Some (PendingRequestsError 1));
     ([EvStatus "online"; EvStatus "online"; EvAddInt32 (-1) 0;
       EvCountPlayerSafe 0 true; playersLog 0 true;
       EvLoadInt32 0; stopCommand cfg "" None; EvGo G_killMSifOnlineAfterTimeout],
      None)] in
  in_turn cfg st calls st' /\
  Status st = "online" /\
  StopMSRequests st = Z.of_nat (length calls) /\
  Z.of_nat (length calls) < 2 ^ 31 /\
  Forall (fun c => server_empty (fst c)) calls /\
  (debounced cfg calls /\ StopMSRequests st' = 0 /\ Status st' = "online").
Proof.
  intros cfg st st' calls.
  assert (H1 : in_turn cfg st calls st').
  { apply in_turn_cons with (st1 := {| Status := "online"; StopMSRequests := 1 |});
      [vm_compute; reflexivity..|].
    apply in_turn_cons with (st1 := st'); [vm_compute; reflexivity..|].
    apply in_turn_nil. }
  assert (H2 : Status st = "online") by reflexivity.
  assert (H3 : StopMSRequests st = Z.of_nat (length calls)) by reflexivity.
  assert (H4 : Z.of_nat (length calls) < 2 ^ 31) by (simpl; lia).
  assert (H5 : Forall (fun c => server_empty (fst c)) calls).
  { unfold calls, server_empty.
    repeat first [apply Forall_nil | apply Forall_cons]; simpl; try exact I; lia. }
  split; [exact H1|]. split; [exact H2|]. split; [exact H3|].
  split; [exact H4|]. split; [exact H5|].
  exact (callbacks_in_turn_debounce H1 H2 H3 H4 H5).
Defined.

(** Two seconds of grace, the server never goes offline: the kill comes
    after twelve seconds of sleep. *)
Lemma watchdog_kills_after_grace_and_buffer_witness :
  let cfg := sampleConfig 2 in
  let tr := polls ["online"; "stopping"] ++ escalation "" None None in
  outcome (killMSifOnlineAfterTimeout cfg) tr = Some (Some tt) /\
  (count is_Kill tr <= 1)%nat /\
  (count is_Kill tr = 1%nat ->
   slept tr = (Z.max 0 (Commands_StopServerAllowKill cfg) + 10) * Second /\
   Z.of_nat (count is_Status tr) = Z.max 0 (Commands_StopServerAllowKill cfg)).
Proof.
  intros cfg tr.
  assert (H : outcome (killMSifOnlineAfterTimeout cfg) tr = Some (Some tt))
    by (vm_compute; reflexivity).
  split; [exact H|]. exact (watchdog_kills_after_grace_and_buffer cfg tr H).
Defined.

(** A watchdog in the middle of its second poll. *)
Lemma watchdog_is_bounded_witness :
  let cfg := sampleConfig 2 in
  let tr := polls ["online"] ++ [EvStatus "stopping"] in
  outcome (killMSifOnlineAfterTimeout cfg) tr = Some None /\
  (length tr <= 3 * grace cfg + 6)%nat /\
  (count is_Status tr <= grace cfg)%nat /\
  0 <= slept tr <= (Z.max 0 (Commands_StopServerAllowKill cfg) + 10) * Second.
Proof.
  intros cfg tr.
  assert (H : outcome (killMSifOnlineAfterTimeout cfg) tr = Some None)
    by (vm_compute; reflexivity).
  split; [exact H|]. exact (watchdog_is_bounded cfg tr H).
Defined.

(** No grace at all: flush, ten seconds, kill. *)
Lemma watchdog_without_grace_witness :
  let cfg := sampleConfig 0 in
  Commands_StopServerAllowKill cfg <= 0 /\
  outcome (killMSifOnlineAfterTimeout cfg) (escalation "" None (Some "no such process"))
  = Some (Some tt).
Proof.
  intros cfg.
  assert (H : Commands_StopServerAllowKill cfg <= 0) by (simpl; lia).
  split; [exact H|].
  apply (proj2 (@watchdog_without_grace cfg _ H)).
  exists "", None, (Some "no such process"). reflexivity.
Defined.

(** Thirty seconds are thirty seconds. *)
Lemma idleTimeout_in_seconds_witness :
  let cfg := sampleConfig 5 in
  - 2 ^ 63 <= Msh_TimeBeforeStoppingEmptyServer cfg < 2 ^ 63 /\
  -9223372036 <= Msh_TimeBeforeStoppingEmptyServer cfg <= 9223372036 /\
  idleTimeout cfg = 30 * Second.
Proof.
  intros cfg.
  assert (H1 : - 2 ^ 63 <= Msh_TimeBeforeStoppingEmptyServer cfg < 2 ^ 63) by (simpl; lia).
  assert (H2 : -9223372036 <= Msh_TimeBeforeStoppingEmptyServer cfg <= 9223372036)
    by (simpl; lia).
  split; [exact H1|]. split; [exact H2|].
  exact (proj2 (@idleTimeout_in_seconds cfg H1) H2).
Defined.

(** The player is unknown but the address is listed. *)
Lemma InWhitelist_accepts_iff_listed_witness :
  let SliceContain := fun p l => existsb (String.eqb p) l in
  let Whitelist := ["alice"; "10.0.0.7"] in
  let params := ["bob"; "10.0.0.7"] in
  (exists p, In p params /\ SliceContain p Whitelist = true) /\
  snd (InWhitelist SliceContain Whitelist params) = None.
Proof.
  intros SliceContain Whitelist params.
  assert (H : exists p, In p params /\ SliceContain p Whitelist = true).
  { exists "10.0.0.7". split; [simpl; auto|reflexivity]. }
  split; [exact H|].
  apply (proj1 (InWhitelist_accepts_iff_listed SliceContain Whitelist params)).
  right. exact H.
Defined.

(** A watchdog on its way to the kill. *)
Lemma only_the_watchdog_kills_witness :
  let cfg := sampleConfig 1 in
  let g := G_killMSifOnlineAfterTimeout in
  let tr := polls ["stopping"] ++ flush "" None ++
            [EvLogln [AStr "send kill signal to minecraft server process since it won't stop normally"];
             EvKill None] in
  outcome (body cfg g) tr = Some (Some tt) /\
  (forall errKill, In (EvKill errKill) tr -> g = G_killMSifOnlineAfterTimeout) /\
  (g = G_killMSifOnlineAfterTimeout ->
   forall ev, In ev tr ->
              is_AddInt32 ev = false /\ is_AfterFunc ev = false /\ is_Go ev = false) /\
  (forall g', In (EvGo g') tr ->
              g' = G_killMSifOnlineAfterTimeout /\ Commands_StopServerAllowKill cfg > 0) /\
  (forall d g', In (EvAfterFunc d g') tr -> g' = G_func1).
Proof.
  intros cfg g tr.
  assert (H : outcome (body cfg g) tr = Some (Some tt)) by (vm_compute; reflexivity).
  split; [exact H|]. exact (only_the_watchdog_kills cfg g tr H).
Defined.

(** One request, its timer, and its func literal up to the stop command. *)
Lemma no_stop_command_unchecked_witness :
  let cfg := sampleConfig 5 in
  exists p' th,
    pool_run cfg
             (start cfg {| Status := "online"; StopMSRequests := 0 |}
                    (repeat G_StopMSRequest 1))
             [Run 0 (EvAddInt32 1 1);
              Run 0 (EvAfterFunc (idleTimeout cfg) G_func1);
              Fire 0;
              Run 1 (EvStatus "online");
              Run 1 (EvStatus "online");
              Run 1 (EvAddInt32 (-1) 0);
              Run 1 (EvCountPlayerSafe 0 true);
              Run 1 (playersLog 0 true);
              Run 1 (EvLoadInt32 0);
              Run 1 (stopCommand cfg "" None)] = Some p' /\
    In th (threads p') /\
    kind th = G_func1 /\
    (forall c o out err, In (EvExecute c o out err) (hist th) ->
                         c = Commands_StopServer cfg /\ o = "StopMS") /\
    (count is_Execute (hist th) = 0%nat \/
     exists k s new playerCount isFromServer pending rest,
       hist th = waits k ++ EvStatus s :: EvStatus "online" :: EvAddInt32 (-1) new ::
                 EvCountPlayerSafe playerCount isFromServer ::
                 playersLog playerCount isFromServer :: EvLoadInt32 pending :: rest /\
       playerCount <= 0 /\ pending <= 0).
Proof.
  intros cfg.
  match goal with |- exists p' th, pool_run _ _ ?s = _ /\ _ => set (sched := s) end.
  eexists. eexists.
  split; [vm_compute; reflexivity|].
  match goal with
  | |- In ?t (threads ?p) /\ _ =>
      assert (Hin : In t (threads p)) by (simpl; right; left; reflexivity)
  end.
  split; [exact Hin|]. split; [reflexivity|].
  match type of Hin with
  | In ?t (threads ?p) =>
      apply (@no_stop_command_unchecked cfg 1 "online" sched p t)
  end.
  - vm_compute. reflexivity.
  - exact Hin.
  - reflexivity.
Defined.
